(** * Research-analysis pipeline: scoring, aggregation and the service layer

    A shallow embedding of
    [backend/app/ml/research_analyzer.py] (class [ResearchAnalyzer]) and of
    [backend/app/services/research_service.py] (class [ResearchService]).

    Conventions of the embedding:
    - a Python [float] is an exact rational ([Q]); equalities between scores
      are stated with [Qeq] ([==]);
    - a Python [str] is a [string]; [lower] and [split] are written out for
      the ASCII range;
    - a [dict] with string keys is a [gmap string _]; [weights.items()] is an
      association list because [zip] consumes it in insertion order;
    - a call that may raise returns a [result];
    - [self] is a record holding the model handles.  *)

From Stdlib Require Import ZArith QArith Qminmax Qabs Lqa Lia List Ascii String.
From stdpp Require Import base option list strings gmap sets.

Local Open Scope string_scope.

(** ** Exceptions and fallible calls *)

Inductive exn : Type :=
| AttributeError
| TypeError
| IndexError
| RequestError
| OverflowError
| ModelError.

Inductive result (A : Type) : Type :=
| Ok (a : A)
| Raise (e : exn).

Arguments Ok {A} a.
Arguments Raise {A} e.

#[global] Instance result_ret : MRet result := fun A a => Ok a.

#[global] Instance result_bind : MBind result := fun A B k m =>
  match m with
  | Ok a => k a
  | Raise e => Raise e
  end.

Definition is_ok {A : Type} (m : result A) : bool :=
  match m with Ok _ => true | Raise _ => false end.

(** ** Python string primitives *)

Module PyStr.

(** [s.split(sep)] for a one-character separator: the pieces between the
    separators, empty pieces included; never the empty list. *)
Fixpoint split_on (sep : ascii) (s : string) : list string :=
  match s with
  | EmptyString => [EmptyString]
  | String c rest =>
      if Ascii.eqb c sep then EmptyString :: split_on sep rest
      else match split_on sep rest with
           | [] => [String c EmptyString]
           | w :: ws => String c w :: ws
           end
  end.

(** The characters [str.split()] treats as white space, ASCII range:
    tab, line feed, vertical tab, form feed, carriage return, the four
    separators 28..31 and the space. *)
Definition is_space (c : ascii) : bool :=
  let n := nat_of_ascii c in
  (((9 <=? n) && (n <=? 13)) || ((28 <=? n) && (n <=? 32)))%nat.

(** [s.split()]: maximal runs of non-space characters. [cur] is the word
    being read, reversed. *)
Fixpoint split_ws_go (cur : list ascii) (s : string) : list string :=
  let flush (k : list string) :=
    match cur with
    | [] => k
    | _ => string_of_list_ascii (rev cur) :: k
    end in
  match s with
  | EmptyString => flush []
  | String c rest =>
      if is_space c then flush (split_ws_go [] rest)
      else split_ws_go (c :: cur) rest
  end.

Definition split_ws (s : string) : list string := split_ws_go [] s.

(** [s.lower()] on the ASCII letters. *)
Definition lower_ascii (c : ascii) : ascii :=
  let n := nat_of_ascii c in
  if ((65 <=? n) && (n <=? 90))%nat then ascii_of_nat (n + 32) else c.

Fixpoint lower (s : string) : string :=
  match s with
  | EmptyString => EmptyString
  | String c rest => String (lower_ascii c) (lower rest)
  end.

End PyStr.

(** ** Numeric helpers *)

Definition Qsum (l : list Q) : Q := fold_left Qplus l 0%Q.

(** [np.mean] of a Python list of floats. *)
Definition np_mean (l : list Q) : Q :=
  (Qsum l / inject_Z (Z.of_nat (length l)))%Q.

Definition in_unit (q : Q) : Prop := (0 <= q /\ q <= 1)%Q.


(** ** Data model *)

(** What a sub-result dictionary stores: a float, or (under
    ['methodology_types']) a list of labels. *)
Inductive value : Type :=
| VFloat (q : Q)
| VLabels (l : list string).

(** [research_data]: the four text fields handed to the analyzer. *)
Record AnalysisInput : Type := mkInput {
  title : string;
  abstract : string;
  content : string;
  keywords : list string
}.

(** The dictionary returned by [analyze_research]. *)
Record AnalysisResult : Type := mkResult {
  content_quality : gmap string value;
  novelty : gmap string value;
  methodology : gmap string value;
  impact_potential : gmap string value;
  overall_score : Q
}.

(** [self].  The three encoders are external pre-trained models; a call to
    one of them may raise.  [torch_std] is the library's standard deviation
    of one tensor row.  The last eight fields are the attributes that
    [analyze_novelty], [analyze_methodology] and [analyze_impact_potential]
    look up on [self]; the class body defines none of them, so a field is
    [None] when the attribute is absent. *)
Record ResearchAnalyzer : Type := mkAnalyzer {
  bert_embeddings : string -> result (list (list Q));
  sentence_transformer : string -> result (list Q);
  use_model : list string -> result (list (list Q));
  torch_std : list Q -> Q;
  calculate_uniqueness : option (list Q -> result Q);
  assess_innovation : option (AnalysisInput -> result Q);
  identify_methodology_types : option (string -> result (list string));
  assess_methodology_robustness : option (string -> result Q);
  assess_validation_methods : option (string -> result Q);
  predict_academic_impact : option (list Q -> result Q);
  predict_practical_impact : option (AnalysisInput -> result Q);
  predict_citation_potential : option (AnalysisInput -> result Q)
}.

(** [self.name(arg)]: attribute lookup, then the call. *)
Definition call_method {A B : Type} (m : option (A -> result B)) (a : A)
  : result B :=
  match m with
  | Some f => f a
  | None => Raise AttributeError
  end.

(** ** The analyzer *)

Module Analyzer.

(** [get_technical_terms]. *)
Definition get_technical_terms : gset string :=
  list_to_set
    [ "algorithm"; "methodology"; "framework"; "analysis";
      "model"; "system"; "data"; "research"; "study";
      "implementation"; "results"; "performance"; "evaluation" ].

(** [count_technical_terms]:
    [len(set(text.lower().split()) & self.get_technical_terms())]. *)
Definition count_technical_terms (text : string) : nat :=
  size ((list_to_set (PyStr.split_ws (PyStr.lower text)) : gset string)
          ∩ get_technical_terms).

(** [assess_technical_depth]: [min(1.0, technical_terms / 100)]. *)
Definition assess_technical_depth (text : string) : Q :=
  Qmin 1 (inject_Z (Z.of_nat (count_technical_terms text)) / 100).

(** [calculate_clarity_score]:
    [float(torch.mean(torch.std(embeddings, dim=1)))]. *)
Definition calculate_clarity_score (self : ResearchAnalyzer)
    (embeddings : list (list Q)) : Q :=
  np_mean (map (torch_std self) embeddings).

Definition dot (u v : list Q) : Q :=
  Qsum (zip_with Qmult u v).

(** [tf.matmul(e, e, transpose_b=True)]. *)
Definition gram (e : list (list Q)) : list (list Q) :=
  map (fun u => map (fun v => dot u v) e) e.

(** [tf.reduce_mean] of a matrix: the mean of all its entries. *)
Definition reduce_mean (m : list (list Q)) : Q :=
  np_mean (concat m).

(** [calculate_coherence_score]. *)
Definition calculate_coherence_score (self : ResearchAnalyzer)
    (text : string) : result Q :=
  let sentences := PyStr.split_on "." text in
  if (length sentences <? 2)%nat then Ok (4 # 5)
  else
    embeddings ← use_model self sentences;
    Ok (reduce_mean (gram embeddings)).

(** The f-string ["{title} {abstract}"]. *)
Definition scored_text (d : AnalysisInput) : string :=
  title d ++ " " ++ abstract d.

(** [analyze_content_quality]. *)
Definition analyze_content_quality (self : ResearchAnalyzer)
    (d : AnalysisInput) : result (gmap string value) :=
  let text := scored_text d in
  embeddings ← bert_embeddings self text;
  let clarity_score := calculate_clarity_score self embeddings in
  coherence_score ← calculate_coherence_score self text;
  let technical_depth := assess_technical_depth text in
  Ok (<["clarity" := VFloat clarity_score]>
      (<["coherence" := VFloat coherence_score]>
      (<["technical_depth" := VFloat technical_depth]>
      (<["overall_quality" :=
           VFloat (np_mean [clarity_score; coherence_score; technical_depth])]>
       ∅)))).

(** [analyze_novelty]. *)
Definition analyze_novelty (self : ResearchAnalyzer)
    (d : AnalysisInput) : result (gmap string value) :=
  let text := scored_text d in
  embeddings ← sentence_transformer self text;
  uniqueness_score ← call_method (calculate_uniqueness self) embeddings;
  innovation_score ← call_method (assess_innovation self) d;
  Ok (<["uniqueness" := VFloat uniqueness_score]>
      (<["innovation" := VFloat innovation_score]>
      (<["overall_novelty" :=
           VFloat (np_mean [uniqueness_score; innovation_score])]>
       ∅))).

(** [analyze_methodology]. *)
Definition analyze_methodology (self : ResearchAnalyzer)
    (d : AnalysisInput) : result (gmap string value) :=
  let content := content d in
  methodology_types ← call_method (identify_methodology_types self) content;
  robustness_score ← call_method (assess_methodology_robustness self) content;
  validation_score ← call_method (assess_validation_methods self) content;
  Ok (<["methodology_types" := VLabels methodology_types]>
      (<["robustness" := VFloat robustness_score]>
      (<["validation" := VFloat validation_score]>
      (<["overall_methodology" :=
           VFloat (np_mean [robustness_score; validation_score])]>
       ∅)))).

(** [self.use_model([text])[0]]. *)
Definition first_row (rows : list (list Q)) : result (list Q) :=
  match rows with
  | r :: _ => Ok r
  | [] => Raise IndexError
  end.

(** [analyze_impact_potential]. *)
Definition analyze_impact_potential (self : ResearchAnalyzer)
    (d : AnalysisInput) : result (gmap string value) :=
  let text := scored_text d in
  rows ← use_model self [text];
  embeddings ← first_row rows;
  academic_impact ← call_method (predict_academic_impact self) embeddings;
  practical_impact ← call_method (predict_practical_impact self) d;
  citation_potential ← call_method (predict_citation_potential self) d;
  Ok (<["academic_impact" := VFloat academic_impact]>
      (<["practical_impact" := VFloat practical_impact]>
      (<["citation_potential" := VFloat citation_potential]>
      (<["overall_impact" :=
           VFloat (np_mean [academic_impact; practical_impact;
                            citation_potential])]>
       ∅)))).

(** The [weights] dictionary, in insertion order ([weights.items()]). *)
Definition weights : list (string * Q) :=
  [ ("content_quality", 3 # 10); ("novelty", 1 # 4);
    ("methodology", 1 # 4); ("impact_potential", 1 # 5) ].

(** ['overall_' + metric.split('_')[0]]. *)
Definition aggregate_key (metric : string) : string :=
  "overall_" ++ hd "" (PyStr.split_on "_" metric).

(** [result[key] * weight]: a list times a float is a [TypeError]. *)
Definition times_weight (v : value) (weight : Q) : result Q :=
  match v with
  | VFloat q => Ok (q * weight)%Q
  | VLabels _ => Raise TypeError
  end.

(** The loop of [calculate_overall_score]: the list [scores]. Every
    element of [results] is a dictionary, so [isinstance(result, dict)]
    holds. *)
Fixpoint collect_scores (pairs : list (gmap string value * (string * Q)))
  : result (list Q) :=
  match pairs with
  | [] => Ok []
  | (res, (metric, weight)) :: rest =>
      match res !! aggregate_key metric with
      | Some v =>
          s ← times_weight v weight;
          scores ← collect_scores rest;
          Ok (s :: scores)
      | None => collect_scores rest
      end
  end.

(** [calculate_overall_score]. *)
Definition calculate_overall_score (results : list (gmap string value))
  : result Q :=
  scores ← collect_scores (zip results weights);
  Ok (Qsum scores).

(** [analyze_research]: the four sub-routines are gathered, an exception
    of any of them propagates; then the result dictionary is built. *)
Definition analyze_research (self : ResearchAnalyzer) (d : AnalysisInput)
  : result AnalysisResult :=
  content_quality ← analyze_content_quality self d;
  novelty ← analyze_novelty self d;
  methodology ← analyze_methodology self d;
  impact ← analyze_impact_potential self d;
  overall ← calculate_overall_score
              [content_quality; novelty; methodology; impact];
  Ok (mkResult content_quality novelty methodology impact overall).

(** The aggregate as the specification words it: the weighted sum of the
    four [overall_*] values with weights 0.30, 0.25, 0.25 and 0.20. *)
Definition spec_overall_score (quality novelty methodology impact : Q) : Q :=
  ((3 # 10) * quality + (1 # 4) * novelty + (1 # 4) * methodology
   + (1 # 5) * impact)%Q.

End Analyzer.

(** ** The service layer *)

(** A topic of [extract_topics]: its top words and its weight. *)
Record Topic : Type := mkTopic {
  words : list string;
  weight : Q
}.

(** The Python values held by the attributes of a [Research] row. *)
Inductive pyval : Type :=
| PNone
| PInt (z : Z)
| PStr (s : string)
| PStrList (l : list string)
| PAnalysis (a : AnalysisResult)
| PVector (v : list Q)
| PTopics (t : gmap string Topic).

(** Python truthiness, as [not research.embedding_vector] needs it. *)
Definition truthy (v : pyval) : bool :=
  match v with
  | PNone => false
  | PInt z => negb (z =? 0)%Z
  | PStr s => negb (String.eqb s "")
  | PStrList l => negb (Nat.eqb (length l) 0)
  | PAnalysis _ => true
  | PVector l => negb (Nat.eqb (length l) 0)
  | PTopics t => negb (Nat.eqb (size t) 0)
  end.

(** A [Research] object is its attribute dictionary: [update] writes
    attributes by name with [setattr]. A column never assigned reads as
    [None]. *)
Definition getattr (research : gmap string pyval) (field : string) : pyval :=
  default PNone (research !! field).

Definition setattr (research : gmap string pyval) (field : string)
    (v : pyval) : gmap string pyval :=
  <[field := v]> research.

(** What [ResearchService] holds and calls: the analyzer's three entry
    points, applied to the attributes the service passes them, and the
    search client. [es_search vector size] gives the [_id]s of the hits, as
    integers, best score first. *)
Record ServiceEnv : Type := mkEnv {
  svc_analyze_research : pyval -> pyval -> pyval -> pyval -> result AnalysisResult;
  svc_generate_embedding : pyval -> pyval -> result (list Q);
  svc_extract_topics : pyval -> result (gmap string Topic);
  es_search : pyval -> Z -> result (list Z)
}.

(** The database table (rows by primary key) and the search index. *)
Record Store : Type := mkStore {
  db : gmap Z (gmap string pyval);
  index : gmap Z (gmap string pyval)
}.

(** The persistence calls of the service, which belong to the database
    session and to the search client and may raise.
    [commit_refresh table research_id research] is
    [self.db.commit(); self.db.refresh(research)] for the object loaded
    under [research_id]: the session flushes its pending attributes (the
    column rules such as NOT NULL and [onupdate] apply there, and so does a
    change of the primary key) and gives the table afterwards together with
    the refreshed object.
    [index_research documents research] is [_index_research(research)]: the
    search index afterwards. *)
Record PersistEnv : Type := mkPersist {
  commit_refresh :
    gmap Z (gmap string pyval) -> Z -> gmap string pyval ->
    result (gmap Z (gmap string pyval) * gmap string pyval);
  index_research :
    gmap Z (gmap string pyval) -> gmap string pyval ->
    result (gmap Z (gmap string pyval))
}.

Module Service.

(** [get]: the row with this primary key, if any. *)
Definition get (st : Store) (research_id : Z) : option (gmap string pyval) :=
  db st !! research_id.

(** The loop [for field, value in update_data.items(): setattr(...)]. *)
Definition apply_update (research : gmap string pyval)
    (update_data : list (string * pyval)) : gmap string pyval :=
  fold_left (fun r fv => setattr r (fst fv) (snd fv)) update_data research.

Definition content_fields : list string := ["title"; "abstract"; "content"].

(** [field in update_data]. *)
Definition has_key (update_data : list (string * pyval)) (field : string)
  : bool :=
  existsb (fun fv => String.eqb (fst fv) field) update_data.

(** [any(field in update_data for field in content_fields)]. *)
Definition content_changed (update_data : list (string * pyval)) : bool :=
  existsb (has_key update_data) content_fields.

(** The three gathered analysis tasks and the three assignments that
    follow them. *)
Definition reanalyze (env : ServiceEnv) (research : gmap string pyval)
  : result (gmap string pyval) :=
  a ← svc_analyze_research env (getattr research "title")
        (getattr research "abstract") (getattr research "content")
        (getattr research "keywords");
  e ← svc_generate_embedding env (getattr research "title")
        (getattr research "abstract");
  t ← svc_extract_topics env (getattr research "content");
  Ok (setattr (setattr (setattr research
        "analysis_results" (PAnalysis a))
        "embedding_vector" (PVector e))
        "topic_distribution" (PTopics t)).

(** The last three statements of [update]: commit and refresh, then index.
    The store as it is when the call ends, and how it ended; when the commit
    has gone through and indexing raises, the table keeps the committed
    state. *)
Definition persist (penv : PersistEnv) (st : Store) (research_id : Z)
    (research : gmap string pyval)
  : Store * result (option (gmap string pyval)) :=
  match commit_refresh penv (db st) research_id research with
  | Raise x => (st, Raise x)
  | Ok (table, refreshed) =>
      match index_research penv (index st) refreshed with
      | Raise x => (mkStore table (index st), Raise x)
      | Ok documents => (mkStore table documents, Ok (Some refreshed))
      end
  end.

(** [update]: the store afterwards and the outcome; [None] when the row
    does not exist. *)
Definition update (env : ServiceEnv) (penv : PersistEnv) (st : Store)
    (research_id : Z) (update_data : list (string * pyval))
  : Store * result (option (gmap string pyval)) :=
  match get st research_id with
  | None => (st, Ok None)
  | Some research =>
      let research := apply_update research update_data in
      match (if content_changed update_data
             then reanalyze env research
             else Ok research) with
      | Raise x => (st, Raise x)
      | Ok research => persist penv st research_id research
      end
  end.

(** The slice [l[:n]] for an integer [n] of either sign. *)
Definition py_take {A : Type} (n : Z) (l : list A) : list A :=
  if (0 <=? n)%Z then take (Z.to_nat n) l
  else take (length l - Z.to_nat (- n)) l.

(** [find_similar]: the rows whose key is among [similar_ids], each with
    its key. *)
Definition find_similar (env : ServiceEnv) (st : Store) (research_id : Z)
    (limit : Z) : result (list (Z * gmap string pyval)) :=
  match get st research_id with
  | None => Ok []
  | Some research =>
      if negb (truthy (getattr research "embedding_vector")) then Ok []
      else
        hits ← es_search env (getattr research "embedding_vector")
                 (limit + 1)%Z;
        let similar_ids :=
          py_take limit
            (filter (fun i => negb (i =? research_id)%Z) hits) in
        Ok (filter (fun row => bool_decide (fst row ∈ similar_ids))
                   (map_to_list (db st)))
  end.

End Service.

(** ** Concrete analyzers and inputs used to run the definitions *)

Module Examples.

(** The class exactly as its body defines it: the three encoders are
    supplied, the eight helper attributes are absent. *)
Definition as_written (bert : string -> result (list (list Q)))
    (st : string -> result (list Q))
    (use : list string -> result (list (list Q)))
    (std : list Q -> Q) : ResearchAnalyzer :=
  mkAnalyzer bert st use std None None None None None None None None.

(** An analyzer whose encoders and helpers return fixed values in the
    unit interval. *)
Definition mid : ResearchAnalyzer :=
  mkAnalyzer
    (fun _ => Ok [[(1 # 4); (3 # 4)]%Q])
    (fun _ => Ok [1%Q; 0%Q])
    (fun sentences => Ok (map (fun _ => [1%Q; 0%Q]) sentences))
    (fun _ => (1 # 2)%Q)
    (Some (fun _ => Ok (1 # 2)%Q))
    (Some (fun _ => Ok (1 # 2)%Q))
    (Some (fun _ => Ok ["survey"]))
    (Some (fun _ => Ok (1 # 2)%Q))
    (Some (fun _ => Ok (1 # 2)%Q))
    (Some (fun _ => Ok (1 # 2)%Q))
    (Some (fun _ => Ok (1 # 2)%Q))
    (Some (fun _ => Ok (1 # 2)%Q)).


(** The input of the end-to-end scenario. *)
Definition scenario : AnalysisInput := mkInput "X" "Y" "short text." [].

(** A text that names every word of the vocabulary. *)
Definition all_terms_text : string :=
  "Algorithm methodology framework analysis model system data research study implementation results performance evaluation".

(** Four sub-results shaped as the four sub-routines build them. *)
Definition quality_dict : gmap string value :=
  <["clarity" := VFloat 1]>
  (<["coherence" := VFloat (4 # 5)]>
  (<["technical_depth" := VFloat 0]>
  (<["overall_quality" := VFloat (3 # 5)]> ∅))).

Definition novelty_dict : gmap string value :=
  <["uniqueness" := VFloat (1 # 2)]>
  (<["innovation" := VFloat (1 # 2)]>
  (<["overall_novelty" := VFloat (1 # 2)]> ∅)).

Definition methodology_dict : gmap string value :=
  <["methodology_types" := VLabels []]>
  (<["robustness" := VFloat (1 # 2)]>
  (<["validation" := VFloat (1 # 2)]>
  (<["overall_methodology" := VFloat (1 # 2)]> ∅))).

Definition impact_dict : gmap string value :=
  <["academic_impact" := VFloat (1 # 2)]>
  (<["practical_impact" := VFloat (1 # 2)]>
  (<["citation_potential" := VFloat (1 # 2)]>
  (<["overall_impact" := VFloat (1 # 2)]> ∅))).

(** Two stored analyses that differ in their overall score. *)
Definition analysis0 : AnalysisResult := mkResult ∅ ∅ ∅ ∅ 0.

Definition analysis1 : AnalysisResult := mkResult ∅ ∅ ∅ ∅ (1 # 2).

Definition paper (name : string) (vec : list Q) : gmap string pyval :=
  <["title" := PStr name]>
  (<["abstract" := PStr "an abstract"]>
  (<["content" := PStr "some content"]>
  (<["keywords" := PStrList ["k"]]>
  (<["analysis_results" := PAnalysis analysis0]>
  (<["embedding_vector" := PVector vec]>
  (<["topic_distribution" := PTopics ∅]> ∅)))))).

(** Three indexed papers; a fourth row without an embedding. *)
Definition store : Store :=
  let rows : gmap Z (gmap string pyval) :=
    <[1%Z := paper "one" [1%Q; 0%Q]]>
    (<[2%Z := paper "two" [0%Q; 1%Q]]>
    (<[3%Z := paper "three" [1%Q; 1%Q]]>
    (<[4%Z := paper "four" []]> ∅))) in
  mkStore rows rows.

(** A service whose analysis returns [analysis1] and whose search client
    ranks the papers 1, 3, 2, gives at most [size] hits and rejects a
    negative [size]. *)
Definition env : ServiceEnv :=
  mkEnv
    (fun _ _ _ _ => Ok analysis1)
    (fun _ _ => Ok [(1 # 2)%Q; (1 # 2)%Q])
    (fun _ => Ok ∅)
    (fun _ size =>
       if (size <? 0)%Z then Raise RequestError
       else Ok (take (Z.to_nat size) [1%Z; 3%Z; 2%Z])).

(** A session and a search client that accept every row: the row is
    stored as it is under the key it was loaded from and comes back
    unchanged. *)
Definition penv : PersistEnv :=
  mkPersist
    (fun table research_id research =>
       Ok (<[research_id := research]> table, research))
    (fun documents research => Ok documents).

(** A session that refuses every commit. *)
Definition refusing_penv : PersistEnv :=
  mkPersist (fun _ _ _ => Raise RequestError) (fun documents _ => Ok documents).

End Examples.

(** ** Further string facts used by the properties *)

Module PyStrFacts.

(** Number of occurrences of a character. *)
Fixpoint count_char (sep : ascii) (s : string) : nat :=
  match s with
  | EmptyString => 0
  | String c rest =>
      (if Ascii.eqb c sep then 1 else 0) + count_char sep rest
  end.

(** [sep.join(parts)] for a one-character separator. *)
Fixpoint join (sep : ascii) (parts : list string) : string :=
  match parts with
  | [] => EmptyString
  | [w] => w
  | w :: ws => w ++ String sep (join sep ws)
  end.

End PyStrFacts.

(** ** Removing a record *)

(** The outside calls of [remove], each of which may raise: [delete_file]
    of the storage utilities; the search client's [delete] (called with
    [ignore=[404]]), which gives the index afterwards; and
    [self.db.delete(research); self.db.commit()], which gives the table
    afterwards. *)
Record RemoveEnv : Type := mkRemoveEnv {
  delete_file : pyval -> result unit;
  es_delete :
    gmap Z (gmap string pyval) -> Z -> result (gmap Z (gmap string pyval));
  commit_delete :
    gmap Z (gmap string pyval) -> Z -> result (gmap Z (gmap string pyval))
}.

Module ServiceOps.

(** [research.pdf_url]. The [Research] class maps no column of that name
    and defines no such attribute, so the read succeeds only on an object
    that was assigned one. *)
Definition read_pdf_url (research : gmap string pyval) : result pyval :=
  match research !! "pdf_url" with
  | Some v => Ok v
  | None => Raise AttributeError
  end.

(** [remove]: the store as it is when the call ends, and how it ended.
    [False] when the row does not exist; otherwise [pdf_url] is read, the
    stored PDF is deleted when it is truthy, the document is removed from
    the search index, the row is deleted and committed, and [True] is
    returned. *)
Definition remove (renv : RemoveEnv) (st : Store) (research_id : Z)
  : Store * result bool :=
  match Service.get st research_id with
  | None => (st, Ok false)
  | Some research =>
      match read_pdf_url research with
      | Raise x => (st, Raise x)
      | Ok pdf_url =>
          match (if truthy pdf_url then delete_file renv pdf_url
                 else Ok tt) with
          | Raise x => (st, Raise x)
          | Ok _ =>
              match es_delete renv (index st) research_id with
              | Raise x => (st, Raise x)
              | Ok documents =>
                  match commit_delete renv (db st) research_id with
                  | Raise x => (mkStore (db st) documents, Raise x)
                  | Ok table => (mkStore table documents, Ok true)
                  end
              end
          end
      end
  end.

End ServiceOps.

Module RemoveExamples.

(** Storage, index and session that carry out every deletion. *)
Definition renv : RemoveEnv :=
  mkRemoveEnv (fun _ => Ok tt)
    (fun documents research_id => Ok (delete research_id documents))
    (fun table research_id => Ok (delete research_id table)).

(** A search client that still reports paper 2 after its row is gone. *)
Definition stale_env : ServiceEnv :=
  mkEnv (fun _ _ _ _ => Ok Examples.analysis1)
        (fun _ _ => Ok [(1 # 2)%Q; (1 # 2)%Q])
        (fun _ => Ok ∅)
        (fun _ _ => Ok [1%Z; 2%Z; 3%Z]).

(** The example table without the row of paper 2. *)
Definition store_without_2 : Store :=
  mkStore (delete 2%Z (db Examples.store)) (delete 2%Z (index Examples.store)).

End RemoveExamples.

(** ** The HTTP endpoints of [api/v1/endpoints/research.py] *)

(** How a request ends badly: an [HTTPException] with its status code and
    detail, or an exception nobody caught. *)
Inductive failure : Type :=
| HttpError (status : Z) (detail : string)
| Uncaught (e : exn).

Inductive response (A : Type) : Type :=
| Respond (a : A)
| Fail (f : failure).

Arguments Respond {A} a.
Arguments Fail {A} f.

(** The part of [User] the endpoints read. *)
Record User : Type := mkUser {
  is_admin : bool
}.

(** What the endpoints reach: the service's collaborators, its session and
    index calls, the storage and search calls of [remove], and the
    module-level [research_analyzer]. *)
Record EndpointEnv : Type := mkEndpointEnv {
  service_env : ServiceEnv;
  persist_env : PersistEnv;
  remove_env : RemoveEnv;
  research_analyzer : pyval -> pyval -> pyval -> pyval -> result AnalysisResult
}.

Module Endpoints.

(** [verify_admin_access]. *)
Definition verify_admin_access (user : User) : response unit :=
  if negb (is_admin user)
  then Fail (HttpError 403 "Admin access required")
  else Respond tt.

(** An exception that leaves a service call leaves the endpoint too. *)
Definition answer {A : Type} (outcome : Store * result A)
  : Store * response A :=
  match outcome with
  | (st, Ok a) => (st, Respond a)
  | (st, Raise e) => (st, Fail (Uncaught e))
  end.

(** [research_analyzer.analyze_research] on the four text attributes of a
    row. *)
Definition analyze_row (env : EndpointEnv) (row : gmap string pyval)
  : result AnalysisResult :=
  research_analyzer env (getattr row "title") (getattr row "abstract")
    (getattr row "content") (getattr row "keywords").

(** The closing step shared by three endpoints:
    [service.update(id, {'analysis_results': analysis_result})]. *)
Definition store_analysis (env : EndpointEnv) (st : Store) (research_id : Z)
    (a : AnalysisResult) : Store * response (option (gmap string pyval)) :=
  answer (Service.update (service_env env) (persist_env env) st research_id
            [("analysis_results", PAnalysis a)]).

(** [delete_research]: the value [service.remove] returns is not looked
    at. *)
Definition delete_research (env : EndpointEnv) (st : Store)
    (research_id : Z) (current_user : User) : Store * response string :=
  match verify_admin_access current_user with
  | Fail f => (st, Fail f)
  | Respond _ =>
      match ServiceOps.remove (remove_env env) st research_id with
      | (st', Ok _) => (st', Respond "Research deleted successfully")
      | (st', Raise e) => (st', Fail (Uncaught e))
      end
  end.

(** [update_research]; [research_update] is
    [research_update.dict(exclude_unset=True)]. Reading [.title] of a
    [None] answer of the service is an [AttributeError]. *)
Definition update_research (env : EndpointEnv) (st : Store)
    (research_id : Z) (research_update : list (string * pyval))
    (current_user : User)
  : Store * response (option (gmap string pyval)) :=
  match verify_admin_access current_user with
  | Fail f => (st, Fail f)
  | Respond _ =>
      match Service.get st research_id with
      | None => (st, Fail (HttpError 404 "Research not found"))
      | Some _ =>
          match Service.update (service_env env) (persist_env env) st
                  research_id research_update with
          | (st1, Raise e) => (st1, Fail (Uncaught e))
          | (st1, Ok updated) =>
              if Service.content_changed research_update then
                match updated with
                | None => (st1, Fail (Uncaught AttributeError))
                | Some row =>
                    match analyze_row env row with
                    | Raise e => (st1, Fail (Uncaught e))
                    | Ok a => store_analysis env st1 research_id a
                    end
                end
              else (st1, Respond updated)
          end
      end
  end.

(** [analyze_research_manually]. *)
Definition analyze_research_manually (env : EndpointEnv) (st : Store)
    (research_id : Z) (current_user : User)
  : Store * response (option (gmap string pyval)) :=
  match verify_admin_access current_user with
  | Fail f => (st, Fail f)
  | Respond _ =>
      match Service.get st research_id with
      | None => (st, Fail (HttpError 404 "Research not found"))
      | Some research =>
          match analyze_row env research with
          | Raise e => (st, Fail (Uncaught e))
          | Ok a => store_analysis env st research_id a
          end
      end
  end.

End Endpoints.

Module EndpointExamples.

Definition analysis2 : AnalysisResult := mkResult ∅ ∅ ∅ ∅ (1 # 4).

(** The service analyses to [analysis1], the endpoint's analyzer to
    [analysis2]. *)
Definition env : EndpointEnv :=
  mkEndpointEnv Examples.env Examples.penv RemoveExamples.renv
    (fun _ _ _ _ => Ok analysis2).

(** The same, with an endpoint analyzer that raises. *)
Definition failing_env : EndpointEnv :=
  mkEndpointEnv Examples.env Examples.penv RemoveExamples.renv
    (fun _ _ _ _ => Raise AttributeError).

Definition admin : User := mkUser true.
Definition visitor : User := mkUser false.

End EndpointExamples.

(** ** Upload checks of [core/security.py] *)

(** An [UploadFile]: its bytes and the read position. *)
Record UploadFile : Type := mkUpload {
  data : list Byte.byte;
  position : nat
}.

Module Security.

(** [await file.read(n)]: up to [n] bytes from the position, which moves
    past them. *)
Definition read (f : UploadFile) (n : nat) : list Byte.byte * UploadFile :=
  let chunk := take n (drop (position f) (data f)) in
  (chunk, mkUpload (data f) (position f + length chunk)).

(** [await file.seek(p)]. *)
Definition seek (f : UploadFile) (p : nat) : UploadFile :=
  mkUpload (data f) p.

Definition allowed_types : list string :=
  [ "application/pdf"; "image/jpeg"; "image/png"; "image/gif";
    "text/plain"; "application/json"; "text/markdown" ].

(** [10 * 1024 * 1024]. *)
Definition max_size : Z := 10 * 1024 * 1024.

Definition header_size : nat := Z.to_nat 2048.
Definition chunk_size : nat := Z.to_nat 8192.

(** The size loop [while chunk := await file.read(8192)]: [None] when the
    iteration budget [fuel] is used up before the loop ends. *)
Fixpoint size_loop (fuel : nat) (f : UploadFile) (file_size : Z)
  : option (UploadFile * response unit) :=
  match fuel with
  | O => None
  | S fuel =>
      let (chunk, f) := read f chunk_size in
      match chunk with
      | [] => Some (f, Respond tt)
      | _ =>
          let file_size := (file_size + Z.of_nat (length chunk))%Z in
          if (max_size <? file_size)%Z
          then Some (f, Fail (HttpError 400 "File too large (max 10MB)"))
          else size_loop fuel f file_size
      end
  end.

(** The hashing loop: every chunk is fed to the digest, which is then
    dropped; what remains is the read position. *)
Fixpoint hash_loop (fuel : nat) (f : UploadFile) : option UploadFile :=
  match fuel with
  | O => None
  | S fuel =>
      let (chunk, f) := read f chunk_size in
      match chunk with
      | [] => Some f
      | _ => hash_loop fuel f
      end
  end.

(** [verify_file_safety]; [from_buffer] is the MIME detector. One more
    iteration than the file has bytes is always enough for either loop. *)
Definition verify_file_safety (from_buffer : list Byte.byte -> string)
    (f : UploadFile) : option (UploadFile * response unit) :=
  let (header, f) := read f header_size in
  let f := seek f 0 in
  let file_type := from_buffer header in
  if negb (bool_decide (file_type ∈ allowed_types))
  then Some (f, Fail (HttpError 400
                        ("File type " ++ file_type ++ " not allowed")))
  else
    match size_loop (S (length (data f))) f 0 with
    | None => None
    | Some (f, Fail e) => Some (f, Fail e)
    | Some (f, Respond _) =>
        let f := seek f 0 in
        match hash_loop (S (length (data f))) f with
        | None => None
        | Some f => Some (seek f 0, Respond tt)
        end
    end.

End Security.

(** ** The in-memory rate limiter of [core/security.py] *)

(** A [RateLimiter]: the two settings (the window in seconds) and, for each
    key, the instants of its recorded requests, oldest first. An instant is
    a [datetime], counted in microseconds from [datetime.min]. *)
Record RateLimiter : Type := mkLimiter {
  max_requests : Z;
  time_window : Z;
  requests : gmap string (list Z)
}.

Module Limiter.

(** [datetime.max], 9999-12-31 23:59:59.999999, in microseconds from
    [datetime.min]: 3652059 days less one microsecond. *)
Definition max_instant : Z := 3652059 * 86400 * 1000000 - 1.

Definition valid_instant (t : Z) : bool :=
  (0 <=? t)%Z && (t <=? max_instant)%Z.

(** [timedelta(seconds=w)] in microseconds: an [OverflowError] when the
    number of days leaves the range of [timedelta]. *)
Definition timedelta_seconds (w : Z) : result Z :=
  if (Z.abs (w / 86400) <=? 999999999)%Z then Ok (w * 1000000)%Z
  else Raise OverflowError.

(** [datetime - timedelta]: an [OverflowError] when the result is not a
    [datetime]. *)
Definition datetime_sub (t delta : Z) : result Z :=
  if valid_instant (t - delta) then Ok (t - delta)%Z
  else Raise OverflowError.

(** [cutoff = now - timedelta(seconds=self.time_window)]. *)
Definition cutoff (rl : RateLimiter) (now : Z) : result Z :=
  delta ← timedelta_seconds (time_window rl);
  datetime_sub now delta.

(** The requests of one key that [_cleanup] keeps: [req > cutoff]. *)
Definition recent (cut : Z) (stamps : list Z) : list Z :=
  filter (fun req => (cut <? req)%Z) stamps.

(** The loop of [_cleanup]: every key keeps its recent requests; a key left
    with none is deleted. *)
Definition prune (cut : Z) (rl : RateLimiter) : RateLimiter :=
  mkLimiter (max_requests rl) (time_window rl)
    (omap (fun stamps =>
             match recent cut stamps with
             | [] => None
             | kept => Some kept
             end)
          (requests rl)).

(** [_cleanup]: the cutoff is computed first, so an [OverflowError] leaves
    the limiter untouched. *)
Definition cleanup (rl : RateLimiter) (now : Z) : result RateLimiter :=
  cut ← cutoff rl now;
  Ok (prune cut rl).

(** [is_allowed]: the limiter afterwards and the verdict. *)
Definition is_allowed (rl : RateLimiter) (now : Z) (key : string)
  : result (RateLimiter * bool) :=
  rl ← cleanup rl now;
  let stamps := (default [] (requests rl !! key) ++ [now])%list in
  Ok (mkLimiter (max_requests rl) (time_window rl)
        (<[key := stamps]> (requests rl)),
      (Z.of_nat (length stamps) <=? max_requests rl)%Z).

(** [count] calls of [is_allowed] for one key at one instant: the limiter
    afterwards and the verdicts in order. *)
Fixpoint burst (count : nat) (rl : RateLimiter) (now : Z) (key : string)
  : result (RateLimiter * list bool) :=
  match count with
  | O => Ok (rl, [])
  | S count =>
      first ← is_allowed rl now key;
      rest ← burst count (fst first) now key;
      Ok (fst rest, snd first :: snd rest)
  end.

(** [api_limiter = RateLimiter(max_requests=100, time_window=60)]. *)
Definition api_limiter : RateLimiter := mkLimiter 100 60 ∅.

End Limiter.

(** ** The [Research] model and its base class *)

(** A [Research] object in memory: its attribute dictionary, and the NumPy
    array that [embedding_vector] holds once [analyze_content] has assigned
    one (the array then stands in for the dictionary entry of that name). *)
Record ResearchObject : Type := mkObject {
  attributes : gmap string pyval;
  raw_embedding : option (list Q)
}.

Module ResearchModel.

(** [Research.analyze_content]: the three attributes are assigned one after
    the other, each right after its own call; the object as it stands when
    the method ends or raises, and how it ended. The embedding is assigned as
    the array the analyzer returns, not as a list. *)
Definition analyze_content (analyzer : ServiceEnv) (self : ResearchObject)
  : ResearchObject * result unit :=
  let fields := attributes self in
  match svc_analyze_research analyzer (getattr fields "title")
          (getattr fields "abstract") (getattr fields "content")
          (getattr fields "keywords") with
  | Raise x => (self, Raise x)
  | Ok a =>
      let self :=
        mkObject (setattr fields "analysis_results" (PAnalysis a))
                 (raw_embedding self) in
      let fields := attributes self in
      match svc_generate_embedding analyzer (getattr fields "title")
              (getattr fields "abstract") with
      | Raise x => (self, Raise x)
      | Ok e =>
          let self := mkObject fields (Some e) in
          match svc_extract_topics analyzer (getattr fields "content") with
          | Raise x => (self, Raise x)
          | Ok t =>
              (mkObject (setattr fields "topic_distribution" (PTopics t))
                        (Some e), Ok tt)
          end
      end
  end.

(** [c.isupper()] on the ASCII range. *)
Definition is_upper (c : ascii) : bool :=
  let n := nat_of_ascii c in ((65 <=? n) && (n <=? 90))%nat.

(** [''.join(['_' + c.lower() if c.isupper() else c for c in name])]. *)
Fixpoint underscore_upper (name : string) : string :=
  match name with
  | EmptyString => EmptyString
  | String c rest =>
      if is_upper c
      then String "_" (String (PyStr.lower_ascii c) (underscore_upper rest))
      else String c (underscore_upper rest)
  end.

(** [s.lstrip('_')]. *)
Fixpoint lstrip_underscore (s : string) : string :=
  match s with
  | String c rest =>
      if Ascii.eqb c "_" then lstrip_underscore rest else s
  | EmptyString => EmptyString
  end.

(** The snake-case step of [Base.__tablename__], before the plural is
    formed. *)
Definition snake_case (name : string) : string :=
  lstrip_underscore (underscore_upper name).

(** No character of the string is an ASCII capital. *)
Fixpoint no_upper (s : string) : bool :=
  match s with
  | EmptyString => true
  | String c rest => negb (is_upper c) && no_upper rest
  end.

End ResearchModel.

(** ** Sums over the rows of an embedding matrix *)

Module GramFacts.



End GramFacts.

(** ** Technical depth over the set that [get_technical_terms] returns *)

Module Vocabulary.






End Vocabulary.

(** * Properties *)

Import Analyzer.

(** ** Technical depth *)

Lemma size_get_technical_terms : size get_technical_terms = 13%nat.
Proof. reflexivity. Qed.

Lemma count_technical_terms_le (text : string) :
  (count_technical_terms text <= 13)%nat.
Proof.
  unfold count_technical_terms.
  rewrite <- size_get_technical_terms.
  apply subseteq_size, intersection_subseteq_r.
Qed.

Lemma inject_nat_bounds (n : nat) :
  (n <= 13)%nat ->
  (0 <= inject_Z (Z.of_nat n) / 100 /\ inject_Z (Z.of_nat n) / 100 <= 13 # 100)%Q.
Proof.
  intros Hn.
  assert (H0 : (0 <= inject_Z (Z.of_nat n))%Q).
  { change 0%Q with (inject_Z 0). rewrite <- Zle_Qle. lia. }
  assert (H13 : (inject_Z (Z.of_nat n) <= 13)%Q).
  { change 13%Q with (inject_Z 13). rewrite <- Zle_Qle. lia. }
  unfold Qdiv. change (/ 100)%Q with (1 # 100)%Q. split; lra.
Qed.

Lemma assess_technical_depth_exact (text : string) :
  (assess_technical_depth text ==
     inject_Z (Z.of_nat (count_technical_terms text)) / 100)%Q.
Proof.
  unfold assess_technical_depth.
  destruct (inject_nat_bounds _ (count_technical_terms_le text)) as [_ Hle].
  apply Q.min_r. lra.
Qed.


(** C9: for every input text the technical-depth sub-metric is at most
    13/100: the vocabulary has exactly 13 words, the count is the size of an
    intersection with it, and the depth is the count over 100 capped at 1. *)
Theorem technical_depth_at_most_13_percent (text : string) :
  size get_technical_terms = 13%nat /\
  (count_technical_terms text <= 13)%nat /\
  (assess_technical_depth text <= 13 # 100)%Q.
Proof.
  split; [apply size_get_technical_terms|].
  split; [apply count_technical_terms_le|].
  rewrite assess_technical_depth_exact.
  apply inject_nat_bounds, count_technical_terms_le.
Qed.

(** With the vocabulary the class has today, no text holds more than 100
    distinct vocabulary words: even the text that names the whole vocabulary
    counts 13 terms and scores 13/100. *)
Lemma saturation_premise_never_met :
  count_technical_terms Examples.all_terms_text = 13%nat /\
  (assess_technical_depth Examples.all_terms_text == 13 # 100)%Q /\
  ((exists text, (100 < count_technical_terms text)%nat) <-> False).
Proof.
  split; [reflexivity|].
  split; [reflexivity|].
  split; [|tauto].
  intros [text H]. pose proof (count_technical_terms_le text). lia.
Qed.

(** With that vocabulary the technical depth is exactly the term count over
    100, the count is at most 13, and the depth stays strictly below the cap
    1.0. *)
Theorem technical_depth_never_saturates (text : string) :
  (assess_technical_depth text ==
     inject_Z (Z.of_nat (count_technical_terms text)) / 100)%Q /\
  (count_technical_terms text <= 13)%nat /\
  (assess_technical_depth text < 1)%Q.
Proof.
  split; [apply assess_technical_depth_exact|].
  split; [apply count_technical_terms_le|].
  rewrite assess_technical_depth_exact.
  destruct (inject_nat_bounds _ (count_technical_terms_le text)). lra.
Qed.



(** ** Coherence *)

Lemma calculate_coherence_score_short (self : ResearchAnalyzer) (text : string) :
  (length (PyStr.split_on "." text) < 2)%nat ->
  calculate_coherence_score self text = Ok (4 # 5).
Proof.
  intros H. unfold calculate_coherence_score.
  destruct (Nat.ltb_spec (length (PyStr.split_on "." text)) 2) as [_|Hge];
    [reflexivity | lia].
Qed.

(** C7: when splitting the scored text on '.' gives fewer than two parts,
    the coherence score is exactly 0.8, the content-quality sub-routine
    reports that value under 'coherence', and the empty text is scored
    without raising. *)
Theorem coherence_defaults_below_two_sentences
    (self : ResearchAnalyzer) (text : string) :
  (length (PyStr.split_on "." text) < 2)%nat ->
  calculate_coherence_score self text = Ok (4 # 5) /\
  (forall d q, scored_text d = text ->
     analyze_content_quality self d = Ok q ->
     q !! "coherence" = Some (VFloat (4 # 5))) /\
  calculate_coherence_score self "" = Ok (4 # 5).
Proof.
  intros H. split; [now apply calculate_coherence_score_short|].
  split; [|reflexivity].
  intros d q Hd Hq. unfold analyze_content_quality in Hq.
  rewrite Hd in Hq.
  rewrite (calculate_coherence_score_short self text H) in Hq.
  destruct (bert_embeddings self text) as [emb|e]; simpl in Hq; [|discriminate].
  injection Hq as <-. reflexivity.
Qed.

Lemma coherence_defaults_below_two_sentences_witness :
  (length (PyStr.split_on "." "X Y") < 2)%nat /\
  calculate_coherence_score Examples.mid "X Y" = Ok (4 # 5) /\
  (forall d q, scored_text d = "X Y" ->
     analyze_content_quality Examples.mid d = Ok q ->
     q !! "coherence" = Some (VFloat (4 # 5))) /\
  calculate_coherence_score Examples.mid "" = Ok (4 # 5).
Proof.
  assert (H : (length (PyStr.split_on "." "X Y") < 2)%nat) by (simpl; lia).
  split; [exact H|].
  exact (coherence_defaults_below_two_sentences Examples.mid "X Y" H).
Defined.

(** ** Aggregation *)

Lemma aggregate_keys :
  map aggregate_key (map fst weights) =
  ["overall_content"; "overall_novelty"; "overall_methodology";
   "overall_impact"].
Proof. reflexivity. Qed.

Lemma collect_scores_delete
    (pairs : list (gmap string value * (string * Q))) (i : nat)
    (r : gmap string value) (metric : string) (w : Q) :
  pairs !! i = Some (r, (metric, w)) ->
  r !! aggregate_key metric = None ->
  collect_scores pairs = collect_scores (delete i pairs).
Proof.
  revert i. induction pairs as [|[r' [m' w']] rest IH]; intros i Hi Hr.
  - discriminate.
  - destruct i as [|i]; simpl in Hi.
    + injection Hi as -> -> ->. simpl. rewrite Hr. reflexivity.
    + simpl. rewrite (IH i Hi Hr). reflexivity.
Qed.

Lemma collect_scores_ok
    (pairs : list (gmap string value * (string * Q))) :
  (forall j r m w l, pairs !! j = Some (r, (m, w)) ->
     r !! aggregate_key m <> Some (VLabels l)) ->
  exists scores, collect_scores pairs = Ok scores.
Proof.
  induction pairs as [|[r [m w]] rest IH]; intros H.
  - eexists; reflexivity.
  - destruct IH as [scores Hs].
    { intros j r' m' w' l Hj. exact (H (S j) r' m' w' l Hj). }
    simpl. destruct (r !! aggregate_key m) as [[q|l]|] eqn:E.
    + simpl. rewrite Hs. simpl. eexists; reflexivity.
    + exfalso. exact (H 0%nat r m w l eq_refl E).
    + rewrite Hs. eexists; reflexivity.
Qed.

Ltac four_results results :=
  destruct results as [|?r1 [|?r2 [|?r3 [|?r4 [|? ?]]]]]; try discriminate.

(** C3: in a list of four sub-results, a sub-result that lacks its derived
    aggregate key adds no term: the score is the one computed from the other
    three pairs, it is the score obtained with an empty dictionary in that
    place (so no default stands in), and the call returns as long as no
    present aggregate is a non-number. *)
Theorem missing_aggregate_key_contributes_nothing
    (results : list (gmap string value)) (i : nat)
    (r : gmap string value) (metric : string) (w : Q) :
  length results = 4%nat ->
  results !! i = Some r ->
  weights !! i = Some (metric, w) ->
  r !! aggregate_key metric = None ->
  calculate_overall_score results =
    (scores ← collect_scores (delete i (zip results weights));
     Ok (Qsum scores)) /\
  calculate_overall_score results =
    calculate_overall_score (<[i := ∅]> results) /\
  ((forall j r' m' w' l,
      results !! j = Some r' -> weights !! j = Some (m', w') ->
      r' !! aggregate_key m' <> Some (VLabels l)) ->
   exists s, calculate_overall_score results = Ok s).
Proof.
  intros Hlen Hi Hw Hr.
  assert (Hz : zip results weights !! i = Some (r, (metric, w))).
  { four_results results.
    destruct i as [|[|[|[|i]]]]; simpl in Hi, Hw; try discriminate;
      injection Hi as ->; injection Hw as <- <-; reflexivity. }
  split; [|split].
  - unfold calculate_overall_score.
    rewrite (collect_scores_delete _ i r metric w Hz Hr). reflexivity.
  - four_results results.
    destruct i as [|[|[|[|i]]]]; simpl in Hi, Hw; try discriminate;
      injection Hi as ->; injection Hw as <- <-;
      unfold calculate_overall_score; simpl;
      rewrite Hr, lookup_empty; reflexivity.
  - intros Hnum. unfold calculate_overall_score.
    destruct (collect_scores_ok (zip results weights)) as [scores Hs].
    + intros j r' m' w' l Hj. four_results results.
      destruct j as [|[|[|[|j]]]]; simpl in Hj; try discriminate;
        injection Hj as <- <- <-.
      * exact (Hnum 0%nat _ _ _ l eq_refl eq_refl).
      * exact (Hnum 1%nat _ _ _ l eq_refl eq_refl).
      * exact (Hnum 2%nat _ _ _ l eq_refl eq_refl).
      * exact (Hnum 3%nat _ _ _ l eq_refl eq_refl).
    + rewrite Hs. eexists; reflexivity.
Qed.

Lemma missing_aggregate_key_contributes_nothing_witness :
  let results := [Examples.quality_dict; Examples.novelty_dict;
                  Examples.methodology_dict; Examples.impact_dict] in
  calculate_overall_score results =
    (scores ← collect_scores (delete 0%nat (zip results weights));
     Ok (Qsum scores)) /\
  calculate_overall_score results =
    calculate_overall_score (<[0%nat := ∅]> results) /\
  ((forall j r' m' w' l,
      results !! j = Some r' -> weights !! j = Some (m', w') ->
      r' !! aggregate_key m' <> Some (VLabels l)) ->
   exists s, calculate_overall_score results = Ok s).
Proof.
  exact (missing_aggregate_key_contributes_nothing
           [Examples.quality_dict; Examples.novelty_dict;
            Examples.methodology_dict; Examples.impact_dict]
           0%nat Examples.quality_dict "content_quality" (3 # 10)
           eq_refl eq_refl eq_refl eq_refl).
Defined.

(** C1, at concrete sub-results: the quality dictionary stores its aggregate
    under 'overall_quality' while the loop looks for 'overall_content', so
    the 0.30 term is left out. With aggregates 0.6, 0.5, 0.5 and 0.5 the
    code returns 0.35 where the weighted sum of the four is 0.53. *)
Theorem quality_term_left_out_of_overall_score :
  aggregate_key "content_quality" = "overall_content" /\
  Examples.quality_dict !! "overall_content" = None /\
  Examples.quality_dict !! "overall_quality" = Some (VFloat (3 # 5)) /\
  (exists s,
     calculate_overall_score
       [Examples.quality_dict; Examples.novelty_dict;
        Examples.methodology_dict; Examples.impact_dict] = Ok s /\
     (s == 7 # 20)%Q) /\
  (spec_overall_score (3 # 5) (1 # 2) (1 # 2) (1 # 2) == 53 # 100)%Q.
Proof.
  split; [reflexivity|].
  split; [reflexivity|].
  split; [reflexivity|].
  split; [|reflexivity].
  eexists. split; [reflexivity|reflexivity].
Qed.

(** ** Shape of the four sub-results *)

Lemma analyze_content_quality_inv (self : ResearchAnalyzer)
    (d : AnalysisInput) (q : gmap string value) :
  analyze_content_quality self d = Ok q ->
  exists emb h,
    bert_embeddings self (scored_text d) = Ok emb /\
    calculate_coherence_score self (scored_text d) = Ok h /\
    let c := calculate_clarity_score self emb in
    let t := assess_technical_depth (scored_text d) in
    q = <["clarity" := VFloat c]>
        (<["coherence" := VFloat h]>
        (<["technical_depth" := VFloat t]>
        (<["overall_quality" := VFloat (np_mean [c; h; t])]> ∅))).
Proof.
  unfold analyze_content_quality. intros H.
  destruct (bert_embeddings self (scored_text d)) as [emb|] eqn:E1;
    simpl in H; [|discriminate].
  destruct (calculate_coherence_score self (scored_text d)) as [h|] eqn:E2;
    simpl in H; [|discriminate].
  injection H as <-. exists emb, h. repeat split.
Qed.

Lemma analyze_novelty_inv (self : ResearchAnalyzer)
    (d : AnalysisInput) (n : gmap string value) :
  analyze_novelty self d = Ok n ->
  exists u i,
    n = <["uniqueness" := VFloat u]>
        (<["innovation" := VFloat i]>
        (<["overall_novelty" := VFloat (np_mean [u; i])]> ∅)).
Proof.
  unfold analyze_novelty. intros H.
  destruct (sentence_transformer self (scored_text d)) as [emb|];
    simpl in H; [|discriminate].
  destruct (call_method (calculate_uniqueness self) emb) as [u|];
    simpl in H; [|discriminate].
  destruct (call_method (assess_innovation self) d) as [i|];
    simpl in H; [|discriminate].
  injection H as <-. exists u, i. reflexivity.
Qed.

Lemma analyze_methodology_inv (self : ResearchAnalyzer)
    (d : AnalysisInput) (m : gmap string value) :
  analyze_methodology self d = Ok m ->
  exists types r v,
    m = <["methodology_types" := VLabels types]>
        (<["robustness" := VFloat r]>
        (<["validation" := VFloat v]>
        (<["overall_methodology" := VFloat (np_mean [r; v])]> ∅))).
Proof.
  unfold analyze_methodology. intros H.
  destruct (call_method (identify_methodology_types self) (content d))
    as [types|]; simpl in H; [|discriminate].
  destruct (call_method (assess_methodology_robustness self) (content d))
    as [r|]; simpl in H; [|discriminate].
  destruct (call_method (assess_validation_methods self) (content d))
    as [v|]; simpl in H; [|discriminate].
  injection H as <-. exists types, r, v. reflexivity.
Qed.

Lemma analyze_impact_potential_inv (self : ResearchAnalyzer)
    (d : AnalysisInput) (m : gmap string value) :
  analyze_impact_potential self d = Ok m ->
  exists a p c,
    m = <["academic_impact" := VFloat a]>
        (<["practical_impact" := VFloat p]>
        (<["citation_potential" := VFloat c]>
        (<["overall_impact" := VFloat (np_mean [a; p; c])]> ∅))).
Proof.
  unfold analyze_impact_potential. intros H.
  destruct (use_model self [scored_text d]) as [rows|];
    simpl in H; [|discriminate].
  destruct (first_row rows) as [emb|]; simpl in H; [|discriminate].
  destruct (call_method (predict_academic_impact self) emb) as [a|];
    simpl in H; [|discriminate].
  destruct (call_method (predict_practical_impact self) d) as [p|];
    simpl in H; [|discriminate].
  destruct (call_method (predict_citation_potential self) d) as [c|];
    simpl in H; [|discriminate].
  injection H as <-. exists a, p, c. reflexivity.
Qed.

(** ** The orchestrating entry point *)

Lemma analyze_research_inv (self : ResearchAnalyzer) (d : AnalysisInput)
    (r : AnalysisResult) :
  analyze_research self d = Ok r ->
  analyze_content_quality self d = Ok (content_quality r) /\
  analyze_novelty self d = Ok (novelty r) /\
  analyze_methodology self d = Ok (methodology r) /\
  analyze_impact_potential self d = Ok (impact_potential r) /\
  calculate_overall_score
    [content_quality r; novelty r; methodology r; impact_potential r]
  = Ok (overall_score r).
Proof.
  unfold analyze_research. intros H.
  destruct (analyze_content_quality self d) as [q|]; simpl in H; [|discriminate].
  destruct (analyze_novelty self d) as [n|]; simpl in H; [|discriminate].
  destruct (analyze_methodology self d) as [m|]; simpl in H; [|discriminate].
  destruct (analyze_impact_potential self d) as [i|]; simpl in H; [|discriminate].
  destruct (calculate_overall_score [q; n; m; i]) as [s|] eqn:Es; simpl in H;
    [|discriminate].
  injection H as <-. simpl. repeat split; try reflexivity. exact Es.
Qed.

(** What the loop computes on four dictionaries of the shapes the
    sub-routines build: the three terms whose key is found. *)
Lemma calculate_overall_score_shaped (c h t u i r v a p z : Q)
    (types : list string) :
  calculate_overall_score
    [ <["clarity" := VFloat c]>
      (<["coherence" := VFloat h]>
      (<["technical_depth" := VFloat t]>
      (<["overall_quality" := VFloat (np_mean [c; h; t])]> ∅)));
      <["uniqueness" := VFloat u]>
      (<["innovation" := VFloat i]>
      (<["overall_novelty" := VFloat (np_mean [u; i])]> ∅));
      <["methodology_types" := VLabels types]>
      (<["robustness" := VFloat r]>
      (<["validation" := VFloat v]>
      (<["overall_methodology" := VFloat (np_mean [r; v])]> ∅)));
      <["academic_impact" := VFloat a]>
      (<["practical_impact" := VFloat p]>
      (<["citation_potential" := VFloat z]>
      (<["overall_impact" := VFloat (np_mean [a; p; z])]> ∅))) ]
  = Ok (Qsum [ (np_mean [u; i] * (1 # 4))%Q;
               (np_mean [r; v] * (1 # 4))%Q;
               (np_mean [a; p; z] * (1 # 5))%Q ]).
Proof. reflexivity. Qed.

Lemma Qsum_three (x y z : Q) : (Qsum [x; y; z] == x + y + z)%Q.
Proof. unfold Qsum. simpl. lra. Qed.

(** The overall score of a returned analysis, in terms of the aggregates
    stored in its sub-results. *)
Lemma analyze_research_overall_score (self : ResearchAnalyzer)
    (d : AnalysisInput) (res : AnalysisResult) :
  analyze_research self d = Ok res ->
  exists q n m i,
    content_quality res !! "overall_quality" = Some (VFloat q) /\
    novelty res !! "overall_novelty" = Some (VFloat n) /\
    methodology res !! "overall_methodology" = Some (VFloat m) /\
    impact_potential res !! "overall_impact" = Some (VFloat i) /\
    (overall_score res == (1 # 4) * n + (1 # 4) * m + (1 # 5) * i)%Q /\
    (overall_score res == spec_overall_score q n m i - (3 # 10) * q)%Q.
Proof.
  intros H.
  destruct (analyze_research_inv self d res H) as (Hq & Hn & Hm & Hi & Hs).
  destruct (analyze_content_quality_inv _ _ _ Hq) as (emb & h & _ & _ & Eq).
  destruct (analyze_novelty_inv _ _ _ Hn) as (u & i & En).
  destruct (analyze_methodology_inv _ _ _ Hm) as (types & r & v & Em).
  destruct (analyze_impact_potential_inv _ _ _ Hi) as (a & p & z & Ei).
  simpl in Eq. rewrite Eq, En, Em, Ei in Hs |- *.
  rewrite calculate_overall_score_shaped in Hs. injection Hs as Hs.
  eexists _, _, _, _.
  split; [reflexivity|]. split; [reflexivity|].
  split; [reflexivity|]. split; [reflexivity|].
  rewrite <- Hs, Qsum_three. unfold spec_overall_score. split; lra.
Qed.

(** C4: when the four aggregates stored in a returned analysis lie in
    [0,1], so does its overall score. *)
Theorem overall_score_in_unit (self : ResearchAnalyzer) (d : AnalysisInput)
    (res : AnalysisResult) (q n m i : Q) :
  analyze_research self d = Ok res ->
  content_quality res !! "overall_quality" = Some (VFloat q) ->
  novelty res !! "overall_novelty" = Some (VFloat n) ->
  methodology res !! "overall_methodology" = Some (VFloat m) ->
  impact_potential res !! "overall_impact" = Some (VFloat i) ->
  in_unit q -> in_unit n -> in_unit m -> in_unit i ->
  in_unit (overall_score res).
Proof.
  intros H Hq Hn Hm Hi [Hq0 Hq1] [Hn0 Hn1] [Hm0 Hm1] [Hi0 Hi1].
  destruct (analyze_research_overall_score self d res H)
    as (q' & n' & m' & i' & Eq & En & Em & Ei & Hs & _).
  rewrite Hn in En. rewrite Hm in Em. rewrite Hi in Ei.
  injection En as <-. injection Em as <-. injection Ei as <-.
  unfold in_unit. rewrite Hs. split; lra.
Qed.

Lemma overall_score_in_unit_witness :
  exists res,
    analyze_research Examples.mid Examples.scenario = Ok res /\
    in_unit (overall_score res).
Proof.
  eexists. split; [reflexivity|].
  eapply (overall_score_in_unit Examples.mid Examples.scenario).
  - reflexivity.
  - reflexivity.
  - reflexivity.
  - reflexivity.
  - reflexivity.
  - split; vm_compute; discriminate.
  - split; vm_compute; discriminate.
  - split; vm_compute; discriminate.
  - split; vm_compute; discriminate.
Defined.

(** C5: a returned analysis holds exactly the four sub-results and the
    score computed from them; when the call raises, one of the four
    sub-routines raised that exception, and nothing is returned. *)
Theorem analyze_research_all_or_nothing (self : ResearchAnalyzer)
    (d : AnalysisInput) :
  match analyze_research self d with
  | Ok res =>
      analyze_content_quality self d = Ok (content_quality res) /\
      analyze_novelty self d = Ok (novelty res) /\
      analyze_methodology self d = Ok (methodology res) /\
      analyze_impact_potential self d = Ok (impact_potential res) /\
      calculate_overall_score
        [content_quality res; novelty res; methodology res;
         impact_potential res] = Ok (overall_score res)
  | Raise e =>
      analyze_content_quality self d = Raise e \/
      analyze_novelty self d = Raise e \/
      analyze_methodology self d = Raise e \/
      analyze_impact_potential self d = Raise e
  end.
Proof.
  destruct (analyze_research self d) as [res|e] eqn:H.
  - exact (analyze_research_inv self d res H).
  - unfold analyze_research in H.
    destruct (analyze_content_quality self d) as [q|e1] eqn:Hq; simpl in H;
      [|injection H as ->; tauto].
    destruct (analyze_novelty self d) as [n|e2] eqn:Hn; simpl in H;
      [|injection H as ->; tauto].
    destruct (analyze_methodology self d) as [m|e3] eqn:Hm; simpl in H;
      [|injection H as ->; tauto].
    destruct (analyze_impact_potential self d) as [i|e4] eqn:Hi; simpl in H;
      [|injection H as ->; tauto].
    exfalso.
    destruct (analyze_content_quality_inv _ _ _ Hq) as (emb & h & _ & _ & Eq).
    destruct (analyze_novelty_inv _ _ _ Hn) as (u & i0 & En).
    destruct (analyze_methodology_inv _ _ _ Hm) as (types & r & v & Em).
    destruct (analyze_impact_potential_inv _ _ _ Hi) as (a & p & z & Ei).
    simpl in Eq. rewrite Eq, En, Em, Ei in H.
    rewrite calculate_overall_score_shaped in H. discriminate.
Qed.

(** The class as its body stands defines none of the helper methods, so
    the novelty sub-routine stops at the first attribute lookup and the
    entry point never returns. *)
Lemma analyze_research_as_written_raises
    (bert : string -> result (list (list Q)))
    (st : string -> result (list Q))
    (use : list string -> result (list (list Q)))
    (std : list Q -> Q) (d : AnalysisInput) :
  is_ok (analyze_research (Examples.as_written bert st use std) d) = false.
Proof.
  unfold analyze_research.
  destruct (analyze_content_quality _ d) as [q|]; [|reflexivity].
  simpl. unfold analyze_novelty. simpl.
  destruct (st (scored_text d)); reflexivity.
Qed.

(** ** Ranges of the sub-metrics *)






(** ** Updating a record *)







(** ** Similar papers *)

Lemma py_take_length {A : Type} (n : Z) (l : list A) :
  (0 <= n)%Z -> (Z.of_nat (length (Service.py_take n l)) <= n)%Z.
Proof.
  intros Hn. unfold Service.py_take.
  destruct (Z.leb_spec 0 n) as [_|Hneg]; [|lia].
  rewrite length_take. lia.
Qed.

Lemma py_take_subseteq {A : Type} (n : Z) (l : list A) (x : A) :
  x ∈ Service.py_take n l -> x ∈ l.
Proof.
  unfold Service.py_take.
  destruct (0 <=? n)%Z; intros H;
    exact (elem_of_sublist _ _ _ H (sublist_take _ _)).
Qed.

Lemma keyed_filter_length {V : Type} (rows : list (Z * V)) (ids : list Z) :
  NoDup (rows.*1) ->
  (length (filter (fun row => bool_decide (fst row ∈ ids)) rows)
   <= length ids)%nat.
Proof.
  intros Hnd.
  set (kept := filter (fun row => bool_decide (fst row ∈ ids)) rows).
  rewrite <- (length_fmap fst kept).
  apply submseteq_length, NoDup_submseteq.
  - apply (sublist_NoDup _ (rows.*1)); [exact Hnd|].
    apply fmap_sublist, sublist_filter.
  - intros k Hk. apply list_elem_of_fmap in Hk as [row [-> Hrow]].
    apply list_elem_of_filter in Hrow as [Hin _].
    apply Is_true_true in Hin. apply bool_decide_eq_true in Hin. exact Hin.
Qed.

(** C10, as the code has it: with [limit = -1] the search is asked for no
    hit and the call returns the empty list, whose length is not at most
    the limit. *)
Lemma find_similar_negative_limit :
  exists papers,
    Service.find_similar Examples.env Examples.store 1 (-1) = Ok papers /\
    papers = [] /\
    (Z.of_nat (length papers) <=? -1)%Z = false.
Proof.
  eexists. split; [reflexivity|]. split; reflexivity.
Qed.

(** C10, amended: [find_similar] returns the empty list when the queried
    paper does not exist or its embedding vector is empty or unset; a
    returned list never holds the queried paper and, for a limit that is
    not negative, has at most [limit] papers; the call returns whenever the
    search does. *)
Theorem find_similar_excludes_query_within_limit (env : ServiceEnv)
    (st : Store) (research_id limit : Z) :
  (Service.get st research_id = None ->
     Service.find_similar env st research_id limit = Ok []) /\
  (forall research,
     Service.get st research_id = Some research ->
     truthy (getattr research "embedding_vector") = false ->
     Service.find_similar env st research_id limit = Ok []) /\
  (forall papers,
     Service.find_similar env st research_id limit = Ok papers ->
     Forall (fun row => fst row <> research_id) papers /\
     ((0 <= limit)%Z -> (Z.of_nat (length papers) <= limit)%Z)) /\
  (forall research hits,
     Service.get st research_id = Some research ->
     truthy (getattr research "embedding_vector") = true ->
     es_search env (getattr research "embedding_vector") (limit + 1)%Z
       = Ok hits ->
     exists papers,
       Service.find_similar env st research_id limit = Ok papers).
Proof.
  unfold Service.find_similar.
  split; [intros ->; reflexivity|].
  split; [intros research -> ->; reflexivity|].
  split.
  - intros papers H.
    destruct (Service.get st research_id) as [research|];
      [|injection H as <-; split; [constructor|simpl; lia]].
    destruct (truthy (getattr research "embedding_vector")); simpl in H;
      [|injection H as <-; split; [constructor|simpl; lia]].
    destruct (es_search env _ _) as [hits|]; simpl in H; [|discriminate].
    injection H as <-. split.
    + apply Forall_forall. intros row Hrow.
      apply list_elem_of_filter in Hrow as [Hin _].
      apply Is_true_true, bool_decide_eq_true in Hin.
      apply py_take_subseteq, list_elem_of_filter in Hin as [Hne _].
      apply Is_true_true, negb_true_iff, Z.eqb_neq in Hne. exact Hne.
    + intros Hlimit.
      pose proof (keyed_filter_length (map_to_list (db st))
                    (Service.py_take limit
                       (filter (fun i => negb (i =? research_id)%Z) hits))
                    (NoDup_fst_map_to_list (db st))) as Hlen.
      pose proof (py_take_length limit
                    (filter (fun i => negb (i =? research_id)%Z) hits)
                    Hlimit).
      lia.
  - intros research hits -> -> ->. simpl. eexists; reflexivity.
Qed.

Lemma find_similar_excludes_query_within_limit_witness :
  exists papers,
    Service.find_similar Examples.env Examples.store 1 2 = Ok papers /\
    length papers = 2%nat /\
    Forall (fun row => fst row <> 1%Z) papers /\
    ((0 <= 2)%Z -> (Z.of_nat (length papers) <= 2)%Z).
Proof.
  eexists. split; [reflexivity|].
  split; [reflexivity|].
  apply (proj1 (proj2 (proj2
           (find_similar_excludes_query_within_limit
              Examples.env Examples.store 1 2)))).
  reflexivity.
Defined.

(** * Further properties of the analyzer *)

Lemma split_on_nonempty (sep : ascii) (s : string) :
  PyStr.split_on sep s <> [].
Proof.
  destruct s as [|c rest]; simpl; [discriminate|].
  destruct (Ascii.eqb c sep); [discriminate|].
  destruct (PyStr.split_on sep rest); discriminate.
Qed.

Lemma split_on_length (sep : ascii) (s : string) :
  length (PyStr.split_on sep s) = S (PyStrFacts.count_char sep s).
Proof.
  induction s as [|c rest IH]; [reflexivity|].
  simpl. destruct (Ascii.eqb c sep).
  - simpl. rewrite IH. reflexivity.
  - pose proof (split_on_nonempty sep rest) as Hne.
    destruct (PyStr.split_on sep rest) as [|w ws]; [contradiction|].
    simpl in *. exact IH.
Qed.

(** Splitting and joining on the same separator gives the text back, and
    the number of pieces is one more than the number of separators. *)
Theorem split_on_join_round_trip (sep : ascii) (s : string) :
  PyStrFacts.join sep (PyStr.split_on sep s) = s /\
  length (PyStr.split_on sep s) = S (PyStrFacts.count_char sep s).
Proof.
  split; [|apply split_on_length].
  induction s as [|c rest IH]; [reflexivity|].
  simpl. destruct (Ascii.eqb_spec c sep) as [->|Hne].
  - pose proof (split_on_nonempty sep rest) as Hn.
    destruct (PyStr.split_on sep rest) as [|w ws] eqn:E; [contradiction|].
    change (PyStrFacts.join sep (EmptyString :: w :: ws))
      with (String sep (PyStrFacts.join sep (w :: ws))).
    rewrite IH. reflexivity.
  - pose proof (split_on_nonempty sep rest) as Hn.
    destruct (PyStr.split_on sep rest) as [|w ws] eqn:E; [contradiction|].
    destruct ws as [|w' ws']; simpl in *; rewrite <- IH; reflexivity.
Qed.

(** X1: the coherence default is taken exactly for a text without a full
    stop. A text with at least one full stop, a single sentence ending in
    one included, is split into two or more pieces and all of them are sent
    to the sentence encoder, whose failure is the failure of the call. *)
Theorem coherence_uses_encoder_iff_full_stop (self : ResearchAnalyzer)
    (text : string) :
  (PyStrFacts.count_char "." text = 0%nat ->
     calculate_coherence_score self text = Ok (4 # 5)) /\
  (PyStrFacts.count_char "." text <> 0%nat ->
     (2 <= length (PyStr.split_on "." text))%nat /\
     calculate_coherence_score self text =
       (embeddings ← use_model self (PyStr.split_on "." text);
        Ok (reduce_mean (gram embeddings)))).
Proof.
  unfold calculate_coherence_score.
  rewrite split_on_length. split; intros H.
  - rewrite H. reflexivity.
  - split; [lia|].
    destruct (Nat.ltb_spec (S (PyStrFacts.count_char "." text)) 2); [lia|].
    reflexivity.
Qed.

Lemma coherence_uses_encoder_iff_full_stop_witness :
  calculate_coherence_score Examples.mid "X Y" = Ok (4 # 5) /\
  (2 <= length (PyStr.split_on "." "short text."))%nat /\
  calculate_coherence_score Examples.mid "short text." =
    (embeddings ← use_model Examples.mid (PyStr.split_on "." "short text.");
     Ok (reduce_mean (gram embeddings))).
Proof.
  split.
  - exact (proj1 (coherence_uses_encoder_iff_full_stop Examples.mid "X Y")
                 eq_refl).
  - apply (proj2 (coherence_uses_encoder_iff_full_stop Examples.mid
                    "short text.")).
    simpl. discriminate.
Defined.
(** X3: in the class as its body stands, the methodology sub-routine raises
    [AttributeError] for every input, the novelty and impact sub-routines
    raise it whenever their encoder returns, and so does the entry point
    whenever the content-quality sub-routine and the sentence encoder
    return. *)
Theorem as_written_raises_attribute_error
    (bert : string -> result (list (list Q)))
    (st : string -> result (list Q))
    (use : list string -> result (list (list Q)))
    (std : list Q -> Q) (d : AnalysisInput) :
  let self := Examples.as_written bert st use std in
  analyze_methodology self d = Raise AttributeError /\
  (forall emb, st (scored_text d) = Ok emb ->
     analyze_novelty self d = Raise AttributeError) /\
  (forall row rows, use [scored_text d] = Ok (row :: rows) ->
     analyze_impact_potential self d = Raise AttributeError) /\
  (forall q emb, analyze_content_quality self d = Ok q ->
     st (scored_text d) = Ok emb ->
     analyze_research self d = Raise AttributeError).
Proof.
  intros self. split; [reflexivity|]. split; [|split].
  - intros emb H. unfold analyze_novelty. simpl. rewrite H. reflexivity.
  - intros row rows H. unfold analyze_impact_potential. simpl.
    rewrite H. reflexivity.
  - intros q emb Hq H. unfold analyze_research. rewrite Hq. simpl.
    unfold analyze_novelty. simpl. rewrite H. reflexivity.
Qed.

Lemma as_written_raises_attribute_error_witness :
  let self := Examples.as_written (fun _ => Ok [[0; 3; 6]%Q])
                (fun _ => Ok [1%Q; 0%Q])
                (fun sentences => Ok (map (fun _ => [1%Q; 0%Q]) sentences))
                (fun _ => 3%Q) in
  analyze_methodology self Examples.scenario = Raise AttributeError /\
  analyze_novelty self Examples.scenario = Raise AttributeError /\
  analyze_impact_potential self Examples.scenario = Raise AttributeError /\
  analyze_research self Examples.scenario = Raise AttributeError.
Proof.
  pose proof (as_written_raises_attribute_error
                (fun _ => Ok [[0; 3; 6]%Q]) (fun _ => Ok [1%Q; 0%Q])
                (fun sentences => Ok (map (fun _ => [1%Q; 0%Q]) sentences))
                (fun _ => 3%Q) Examples.scenario) as (Hm & Hn & Hi & Hr).
  split; [exact Hm|].
  split; [exact (Hn _ eq_refl)|].
  split; [exact (Hi _ _ eq_refl)|].
  eapply Hr; [reflexivity | reflexivity].
Defined.

(** X4: the overall score of a returned analysis whose novelty,
    methodology and impact aggregates lie in [0,1] is at most 0.7, whatever
    the quality aggregate is: the quality sub-result has no influence on
    it. *)
Theorem overall_score_at_most_seven_tenths (self : ResearchAnalyzer)
    (d : AnalysisInput) (res : AnalysisResult) (n m i : Q) :
  analyze_research self d = Ok res ->
  novelty res !! "overall_novelty" = Some (VFloat n) ->
  methodology res !! "overall_methodology" = Some (VFloat m) ->
  impact_potential res !! "overall_impact" = Some (VFloat i) ->
  in_unit n -> in_unit m -> in_unit i ->
  (0 <= overall_score res <= 7 # 10)%Q.
Proof.
  intros H Hn Hm Hi [Hn0 Hn1] [Hm0 Hm1] [Hi0 Hi1].
  destruct (analyze_research_overall_score self d res H)
    as (q' & n' & m' & i' & _ & En & Em & Ei & Hs & _).
  rewrite Hn in En. rewrite Hm in Em. rewrite Hi in Ei.
  injection En as <-. injection Em as <-. injection Ei as <-.
  rewrite Hs. split; lra.
Qed.

Lemma overall_score_at_most_seven_tenths_witness :
  exists res,
    analyze_research Examples.mid Examples.scenario = Ok res /\
    (0 <= overall_score res <= 7 # 10)%Q.
Proof.
  eexists. split; [reflexivity|].
  eapply (overall_score_at_most_seven_tenths Examples.mid Examples.scenario).
  - reflexivity.
  - reflexivity.
  - reflexivity.
  - reflexivity.
  - split; vm_compute; discriminate.
  - split; vm_compute; discriminate.
  - split; vm_compute; discriminate.
Defined.

(** X5: the aggregation pairs sub-results with the four weights by
    position, so results after the fourth are ignored and an empty list
    scores 0. *)
Theorem calculate_overall_score_uses_first_four
    (results more : list (gmap string value)) :
  length results = 4%nat ->
  calculate_overall_score (results ++ more) = calculate_overall_score results
  /\ calculate_overall_score [] = Ok 0%Q.
Proof.
  intros H. four_results results. split; [|reflexivity].
  unfold calculate_overall_score. simpl. destruct more; reflexivity.
Qed.

Lemma calculate_overall_score_uses_first_four_witness :
  calculate_overall_score
    ([Examples.quality_dict; Examples.novelty_dict;
      Examples.methodology_dict; Examples.impact_dict]
     ++ [Examples.impact_dict])
  = calculate_overall_score
      [Examples.quality_dict; Examples.novelty_dict;
       Examples.methodology_dict; Examples.impact_dict]
  /\ calculate_overall_score [] = Ok 0%Q.
Proof.
  exact (calculate_overall_score_uses_first_four
           [Examples.quality_dict; Examples.novelty_dict;
            Examples.methodology_dict; Examples.impact_dict]
           [Examples.impact_dict] eq_refl).
Defined.

(** * Further properties of the service *)

(** X7: [remove] of a key that has no row returns [False] and changes
    nothing. For an existing row the first step reads [pdf_url]: on an
    object that carries no such attribute, as every row loaded from the table
    does, the call raises [AttributeError] and nothing is deleted anywhere.
    Only on an object that was assigned one does the call go on; it then
    returns [True] exactly when the index and the session carried out their
    deletions, and when it raises the table is as it was and the exception is
    the one of the storage call, of the search call or of the commit. *)
Theorem remove_outcomes (renv : RemoveEnv) (st : Store) (research_id : Z) :
  match Service.get st research_id with
  | None => ServiceOps.remove renv st research_id = (st, Ok false)
  | Some research =>
      match research !! "pdf_url" with
      | None =>
          ServiceOps.remove renv st research_id = (st, Raise AttributeError)
      | Some pdf_url =>
          match ServiceOps.remove renv st research_id with
          | (st', Ok removed) =>
              removed = true /\
              es_delete renv (index st) research_id = Ok (index st') /\
              commit_delete renv (db st) research_id = Ok (db st')
          | (st', Raise x) =>
              db st' = db st /\
              ((truthy pdf_url = true /\ delete_file renv pdf_url = Raise x)
               \/ es_delete renv (index st) research_id = Raise x
               \/ commit_delete renv (db st) research_id = Raise x)
          end
      end
  end.
Proof.
  unfold ServiceOps.remove, ServiceOps.read_pdf_url.
  destruct (Service.get st research_id) as [research|]; [|reflexivity].
  destruct (research !! "pdf_url") as [pdf_url|]; [|reflexivity].
  destruct (truthy pdf_url) eqn:Ht.
  - destruct (delete_file renv pdf_url) as [[]|x] eqn:Hf;
      [|split; [reflexivity|left; split; reflexivity]].
    destruct (es_delete renv (index st) research_id) as [documents|x] eqn:He;
      [|split; [reflexivity|right; left; reflexivity]].
    destruct (commit_delete renv (db st) research_id) as [table|x] eqn:Hc.
    + repeat split; reflexivity.
    + split; [reflexivity|right; right; reflexivity].
  - destruct (es_delete renv (index st) research_id) as [documents|x] eqn:He;
      [|split; [reflexivity|right; left; reflexivity]].
    destruct (commit_delete renv (db st) research_id) as [table|x] eqn:Hc.
    + repeat split; reflexivity.
    + split; [reflexivity|right; right; reflexivity].
Qed.

Lemma remove_outcomes_witness :
  ServiceOps.remove RemoveExamples.renv Examples.store 9
    = (Examples.store, Ok false) /\
  ServiceOps.remove RemoveExamples.renv Examples.store 2
    = (Examples.store, Raise AttributeError).
Proof.
  split.
  - exact (remove_outcomes RemoveExamples.renv Examples.store 9).
  - exact (remove_outcomes RemoveExamples.renv Examples.store 2).
Defined.

(** X8: every paper [find_similar] returns is a row of the table whose key
    the search reported, so a hit without a row (a stale index document) is
    left out; with [limit = 0] the result is empty whenever the search
    returns. *)
Theorem find_similar_returns_table_rows (env : ServiceEnv) (st : Store)
    (research_id limit : Z) (research : gmap string pyval) (hits : list Z) :
  Service.get st research_id = Some research ->
  truthy (getattr research "embedding_vector") = true ->
  es_search env (getattr research "embedding_vector") (limit + 1)%Z
    = Ok hits ->
  exists papers,
    Service.find_similar env st research_id limit = Ok papers /\
    Forall (fun row => db st !! fst row = Some (snd row) /\ fst row ∈ hits)
           papers /\
    (limit = 0%Z -> papers = []).
Proof.
  intros Hget Ht Hs. unfold Service.find_similar.
  rewrite Hget, Ht. simpl. rewrite Hs. simpl.
  eexists. split; [reflexivity|]. split.
  - apply Forall_forall. intros [k row] Hrow.
    apply list_elem_of_filter in Hrow as [Hin Hdb].
    apply Is_true_true, bool_decide_eq_true in Hin. simpl in *.
    split; [apply elem_of_map_to_list; exact Hdb|].
    apply py_take_subseteq, list_elem_of_filter in Hin as [_ Hin].
    exact Hin.
  - intros ->.
    match goal with |- ?l = [] => destruct l as [|x xs] eqn:E end;
      [reflexivity|exfalso].
    assert (Hx : x ∈ x :: xs) by left. rewrite <- E in Hx.
    apply list_elem_of_filter in Hx as [Hin _].
    apply Is_true_true, bool_decide_eq_true in Hin.
    unfold Service.py_take in Hin. simpl in Hin.
    apply elem_of_nil in Hin. exact Hin.
Qed.

Lemma find_similar_returns_table_rows_witness :
  exists papers,
    Service.find_similar RemoveExamples.stale_env
      RemoveExamples.store_without_2 1 5 = Ok papers /\
    Forall (fun row => db RemoveExamples.store_without_2 !! fst row
                         = Some (snd row) /\
                       fst row ∈ [1%Z; 2%Z; 3%Z]) papers /\
    (5%Z = 0%Z -> papers = []).
Proof.
  assert (Hg : Service.get RemoveExamples.store_without_2 1
               = Some (Examples.paper "one" [1%Q; 0%Q])).
  { unfold Service.get, RemoveExamples.store_without_2. cbn [db].
    rewrite lookup_delete_ne by discriminate. reflexivity. }
  exact (find_similar_returns_table_rows RemoveExamples.stale_env
           RemoveExamples.store_without_2 1 5
           (Examples.paper "one" [1%Q; 0%Q]) [1%Z; 2%Z; 3%Z]
           Hg eq_refl eq_refl).
Defined.

(** * Properties of the endpoints *)

Lemma store_analysis_existing (env : EndpointEnv) (st : Store)
    (research_id : Z) (research : gmap string pyval) (a : AnalysisResult) :
  Service.get st research_id = Some research ->
  Endpoints.store_analysis env st research_id a =
    Endpoints.answer
      (Service.persist (persist_env env) st research_id
         (setattr research "analysis_results" (PAnalysis a))).
Proof.
  intros H. unfold Endpoints.store_analysis, Service.update.
  rewrite H. reflexivity.
Qed.

Lemma setattr_other (research : gmap string pyval) (name field : string)
    (v : pyval) :
  field <> name -> getattr (setattr research name v) field
                   = getattr research field.
Proof.
  intros Hne. unfold getattr, setattr.
  rewrite lookup_insert_ne by congruence. reflexivity.
Qed.

(** X9: a request on a key that has no row is answered differently by the
    three administrator endpoints: [delete_research] reports success and
    changes nothing, while [update_research] and [analyze_research_manually]
    answer 404; a user who is not an administrator gets 403 from all three
    and the store is left as it was. *)
Theorem endpoints_on_missing_row_and_non_admin (env : EndpointEnv)
    (st : Store) (research_id : Z) (research_update : list (string * pyval))
    (user : User) :
  (is_admin user = false ->
     Endpoints.delete_research env st research_id user
       = (st, Fail (HttpError 403 "Admin access required")) /\
     Endpoints.update_research env st research_id research_update user
       = (st, Fail (HttpError 403 "Admin access required")) /\
     Endpoints.analyze_research_manually env st research_id user
       = (st, Fail (HttpError 403 "Admin access required"))) /\
  (is_admin user = true -> Service.get st research_id = None ->
     Endpoints.delete_research env st research_id user
       = (st, Respond "Research deleted successfully") /\
     Endpoints.update_research env st research_id research_update user
       = (st, Fail (HttpError 404 "Research not found")) /\
     Endpoints.analyze_research_manually env st research_id user
       = (st, Fail (HttpError 404 "Research not found"))).
Proof.
  unfold Endpoints.delete_research, Endpoints.update_research,
    Endpoints.analyze_research_manually, Endpoints.verify_admin_access,
    ServiceOps.remove.
  split.
  - intros ->. simpl. repeat split.
  - intros -> ->. simpl. repeat split.
Qed.

Lemma endpoints_on_missing_row_and_non_admin_witness :
  (Endpoints.delete_research EndpointExamples.env Examples.store 2
     EndpointExamples.visitor
   = (Examples.store, Fail (HttpError 403 "Admin access required"))) /\
  (Endpoints.delete_research EndpointExamples.env Examples.store 9
     EndpointExamples.admin
   = (Examples.store, Respond "Research deleted successfully")) /\
  (Endpoints.analyze_research_manually EndpointExamples.env Examples.store 9
     EndpointExamples.admin
   = (Examples.store, Fail (HttpError 404 "Research not found"))).
Proof.
  pose proof (endpoints_on_missing_row_and_non_admin EndpointExamples.env
                Examples.store 2 [] EndpointExamples.visitor) as [Hv _].
  pose proof (endpoints_on_missing_row_and_non_admin EndpointExamples.env
                Examples.store 9 [] EndpointExamples.admin) as [_ Ha].
  destruct (Hv eq_refl) as (H1 & _ & _).
  destruct (Ha eq_refl eq_refl) as (H2 & _ & H3).
  split; [exact H1|]. split; [exact H2|exact H3].
Defined.

(** X10: [analyze_research_manually] on an existing row, when the analyzer
    returns, hands to the commit the stored row with [analysis_results]
    replaced by the new analysis and every other attribute, the embedding
    vector and the topic distribution included, as it was; the answer is
    what the commit and the indexing make of it. *)
Theorem manual_analysis_only_sets_analysis_results (env : EndpointEnv)
    (st : Store) (research_id : Z) (research : gmap string pyval)
    (a : AnalysisResult) (user : User) :
  is_admin user = true ->
  Service.get st research_id = Some research ->
  Endpoints.analyze_row env research = Ok a ->
  let pending := setattr research "analysis_results" (PAnalysis a) in
  Endpoints.analyze_research_manually env st research_id user
    = Endpoints.answer
        (Service.persist (persist_env env) st research_id pending) /\
  getattr pending "analysis_results" = PAnalysis a /\
  (forall field, field <> "analysis_results" ->
     getattr pending field = getattr research field).
Proof.
  intros Hadmin Hget Ha pending.
  unfold Endpoints.analyze_research_manually, Endpoints.verify_admin_access.
  rewrite Hadmin, Hget, Ha. simpl.
  rewrite (store_analysis_existing env st research_id research a Hget).
  split; [reflexivity|].
  split; [unfold pending, getattr, setattr; rewrite lookup_insert_eq;
          reflexivity|].
  intros field Hne. apply setattr_other. exact Hne.
Qed.

Lemma manual_analysis_only_sets_analysis_results_witness :
  exists st' row,
    Endpoints.analyze_research_manually EndpointExamples.env Examples.store 1
      EndpointExamples.admin = (st', Respond (Some row)) /\
    getattr row "analysis_results" = PAnalysis EndpointExamples.analysis2 /\
    getattr row "embedding_vector" = PVector [1%Q; 0%Q].
Proof.
  assert (Hg : Service.get Examples.store 1
               = Some (Examples.paper "one" [1%Q; 0%Q])) by reflexivity.
  destruct (manual_analysis_only_sets_analysis_results EndpointExamples.env
              Examples.store 1 (Examples.paper "one" [1%Q; 0%Q])
              EndpointExamples.analysis2 EndpointExamples.admin
              eq_refl Hg eq_refl) as (H1 & H2 & H3).
  eexists _, _. split; [rewrite H1; reflexivity|].
  split; [exact H2|].
  rewrite (H3 "embedding_vector") by discriminate. reflexivity.
Defined.

(** X11: [update_research] with a change of title, abstract or content
    analyses the paper twice. Once the service's re-analysis has been
    committed, the endpoint runs its own analyzer on the refreshed row and
    has the stored row committed again with [analysis_results] replaced by
    its own result, every other attribute, the embedding vector and the
    topic distribution of the first commit included, as stored. *)
Theorem update_research_analyses_twice (env : EndpointEnv) (st st1 : Store)
    (research_id : Z) (research row row1 stored1 : gmap string pyval)
    (research_update : list (string * pyval)) (user : User)
    (a2 : AnalysisResult) :
  is_admin user = true ->
  Service.get st research_id = Some research ->
  Service.content_changed research_update = true ->
  Service.reanalyze (service_env env)
    (Service.apply_update research research_update) = Ok row ->
  Service.persist (persist_env env) st research_id row
    = (st1, Ok (Some row1)) ->
  Endpoints.analyze_row env row1 = Ok a2 ->
  Service.get st1 research_id = Some stored1 ->
  let pending := setattr stored1 "analysis_results" (PAnalysis a2) in
  Endpoints.update_research env st research_id research_update user
    = Endpoints.answer
        (Service.persist (persist_env env) st1 research_id pending) /\
  getattr pending "analysis_results" = PAnalysis a2 /\
  (forall field, field <> "analysis_results" ->
     getattr pending field = getattr stored1 field).
Proof.
  intros Hadmin Hget Hc Hre Hp Ha2 Hget1 pending.
  unfold Endpoints.update_research, Endpoints.verify_admin_access.
  rewrite Hadmin, Hget. simpl.
  unfold Service.update. rewrite Hget, Hc, Hre, Hp, Ha2.
  rewrite (store_analysis_existing env st1 research_id stored1 a2 Hget1).
  split; [reflexivity|].
  split; [unfold pending, getattr, setattr; rewrite lookup_insert_eq;
          reflexivity|].
  intros field Hne. apply setattr_other. exact Hne.
Qed.

Lemma update_research_analyses_twice_witness :
  exists st' row,
    Endpoints.update_research EndpointExamples.env Examples.store 1
      [("title", PStr "renamed")] EndpointExamples.admin
      = (st', Respond (Some row)) /\
    getattr row "title" = PStr "renamed" /\
    getattr row "analysis_results" = PAnalysis EndpointExamples.analysis2 /\
    getattr row "embedding_vector" = PVector [(1 # 2)%Q; (1 # 2)%Q].
Proof.
  assert (Hg : Service.get Examples.store 1
               = Some (Examples.paper "one" [1%Q; 0%Q])) by reflexivity.
  destruct (update_research_analyses_twice EndpointExamples.env
              Examples.store _ 1 (Examples.paper "one" [1%Q; 0%Q]) _ _ _
              [("title", PStr "renamed")] EndpointExamples.admin
              EndpointExamples.analysis2
              eq_refl Hg eq_refl eq_refl eq_refl eq_refl
              ltac:(unfold Service.get; cbn [db]; apply lookup_insert_eq))
    as (H1 & H2 & H3).
  eexists _, _. split; [rewrite H1; reflexivity|].
  split; [rewrite H3 by discriminate; reflexivity|].
  split; [exact H2|].
  rewrite H3 by discriminate. reflexivity.
Defined.

(** X12: [update_research] is not atomic. When the service's update has
    been committed and indexed and the endpoint's own analyzer then raises,
    the request fails with that exception and the store stays as the
    service's commit left it; nothing is rolled back. *)
Theorem update_research_commits_before_failing (env : EndpointEnv)
    (st st1 : Store) (research_id : Z) (research row row1 : gmap string pyval)
    (research_update : list (string * pyval)) (user : User) (x : exn) :
  is_admin user = true ->
  Service.get st research_id = Some research ->
  Service.content_changed research_update = true ->
  Service.reanalyze (service_env env)
    (Service.apply_update research research_update) = Ok row ->
  Service.persist (persist_env env) st research_id row
    = (st1, Ok (Some row1)) ->
  Endpoints.analyze_row env row1 = Raise x ->
  Endpoints.update_research env st research_id research_update user
    = (st1, Fail (Uncaught x)).
Proof.
  intros Hadmin Hget Hc Hre Hp Hx.
  unfold Endpoints.update_research, Endpoints.verify_admin_access.
  rewrite Hadmin, Hget. simpl.
  unfold Service.update. rewrite Hget, Hc, Hre, Hp, Hx. reflexivity.
Qed.

Lemma update_research_commits_before_failing_witness :
  exists st1 row,
    Endpoints.update_research EndpointExamples.failing_env Examples.store 1
      [("title", PStr "renamed")] EndpointExamples.admin
      = (st1, Fail (Uncaught AttributeError)) /\
    Service.get st1 1 = Some row /\
    getattr row "title" = PStr "renamed" /\
    getattr row "analysis_results" = PAnalysis Examples.analysis1.
Proof.
  assert (Hg : Service.get Examples.store 1
               = Some (Examples.paper "one" [1%Q; 0%Q])) by reflexivity.
  eexists _, _. split.
  - exact (update_research_commits_before_failing
             EndpointExamples.failing_env Examples.store _ 1
             (Examples.paper "one" [1%Q; 0%Q]) _ _
             [("title", PStr "renamed")] EndpointExamples.admin
             AttributeError eq_refl Hg eq_refl eq_refl eq_refl eq_refl).
  - split; [unfold Service.get; cbn [db]; apply lookup_insert_eq|].
    split; reflexivity.
Defined.

(** * Properties of the upload checks *)

Lemma chunk_size_pos : (0 < Security.chunk_size)%nat.
Proof. unfold Security.chunk_size. lia. Qed.

Lemma read_chunk (f f' : UploadFile) (chunk : list Byte.byte) :
  position f <= length (data f) ->
  Security.read f Security.chunk_size = (chunk, f') ->
  data f' = data f /\
  position f' = (position f + length chunk)%nat /\
  position f' <= length (data f) /\
  (chunk = [] -> position f = length (data f)) /\
  (chunk <> [] -> (0 < length chunk)%nat).
Proof.
  intros Hp E. unfold Security.read in E. injection E as <- <-.
  cbn [data position].
  pose proof chunk_size_pos as Hc.
  set (rest := drop (position f) (data f)).
  assert (Hrest : length rest = (length (data f) - position f)%nat)
    by apply length_drop.
  pose proof (length_take rest Security.chunk_size) as Ht.
  split; [reflexivity|]. split; [reflexivity|]. split; [lia|]. split.
  - intros Hnil.
    assert (H0 : length (take Security.chunk_size rest) = 0%nat)
      by (rewrite Hnil; reflexivity).
    lia.
  - intros Hne. destruct (take Security.chunk_size rest); [contradiction|].
    cbn [length]. lia.
Qed.

Lemma size_loop_step (fuel : nat) (f : UploadFile) (file_size : Z) :
  Security.size_loop (S fuel) f file_size =
  match Security.read f Security.chunk_size with
  | ([], f') => Some (f', Respond tt)
  | (chunk, f') =>
      if (Security.max_size <? file_size + Z.of_nat (length chunk))%Z
      then Some (f', Fail (HttpError 400 "File too large (max 10MB)"))
      else Security.size_loop fuel f'
             (file_size + Z.of_nat (length chunk))%Z
  end.
Proof.
  cbn [Security.size_loop].
  destruct (Security.read f Security.chunk_size) as [[|b chunk] f'];
    reflexivity.
Qed.

Lemma hash_loop_step (fuel : nat) (f : UploadFile) :
  Security.hash_loop (S fuel) f =
  match Security.read f Security.chunk_size with
  | ([], f') => Some f'
  | (_, f') => Security.hash_loop fuel f'
  end.
Proof.
  cbn [Security.hash_loop].
  destruct (Security.read f Security.chunk_size) as [[|b chunk] f'];
    reflexivity.
Qed.

Lemma size_loop_spec (fuel : nat) : forall f : UploadFile,
  position f <= length (data f) ->
  (length (data f) - position f < fuel)%nat ->
  (Z.of_nat (position f) <= Security.max_size)%Z ->
  exists f' r,
    Security.size_loop fuel f (Z.of_nat (position f)) = Some (f', r) /\
    data f' = data f /\
    if (Z.of_nat (length (data f)) <=? Security.max_size)%Z
    then r = Respond tt
    else r = Fail (HttpError 400 "File too large (max 10MB)") /\
         (Security.max_size < Z.of_nat (position f'))%Z.
Proof.
  induction fuel as [|fuel IH]; intros f Hp Hfuel Hmax; [lia|].
  rewrite size_loop_step.
  destruct (Security.read f Security.chunk_size) as [chunk f'] eqn:E.
  destruct (read_chunk f f' chunk Hp E) as (Hd & Hpos & Hle & Hnil & Hne).
  destruct chunk as [|b chunk].
  - exists f', (Respond tt). split; [reflexivity|]. split; [exact Hd|].
    specialize (Hnil eq_refl).
    destruct (Z.leb_spec (Z.of_nat (length (data f))) Security.max_size);
      [reflexivity|lia].
  - specialize (Hne ltac:(discriminate)).
    replace (Z.of_nat (position f) + Z.of_nat (length (b :: chunk)))%Z
      with (Z.of_nat (position f')) by (rewrite Hpos; lia).
    destruct (Z.ltb_spec Security.max_size (Z.of_nat (position f')))
      as [Hover|Hunder].
    + exists f', (Fail (HttpError 400 "File too large (max 10MB)")).
      split; [reflexivity|]. split; [exact Hd|].
      destruct (Z.leb_spec (Z.of_nat (length (data f))) Security.max_size);
        [lia|]. split; [reflexivity|exact Hover].
    + destruct (IH f') as (f'' & r & Hrun & Hd' & Hres).
      * rewrite Hd. exact Hle.
      * rewrite Hd. lia.
      * exact Hunder.
      * exists f'', r. split; [exact Hrun|]. rewrite Hd in *.
        split; [exact Hd'|exact Hres].
Qed.

Lemma hash_loop_spec (fuel : nat) : forall f : UploadFile,
  position f <= length (data f) ->
  (length (data f) - position f < fuel)%nat ->
  exists f', Security.hash_loop fuel f = Some f' /\ data f' = data f.
Proof.
  induction fuel as [|fuel IH]; intros f Hp Hfuel; [lia|].
  rewrite hash_loop_step.
  destruct (Security.read f Security.chunk_size) as [chunk f'] eqn:E.
  destruct (read_chunk f f' chunk Hp E) as (Hd & Hpos & Hle & Hnil & Hne).
  destruct chunk as [|b chunk].
  - exists f'. split; [reflexivity|exact Hd].
  - specialize (Hne ltac:(discriminate)).
    destruct (IH f') as (f'' & Hrun & Hd').
    + rewrite Hd. exact Hle.
    + rewrite Hd. lia.
    + exists f''. split; [exact Hrun|]. rewrite Hd'. exact Hd.
Qed.

(** X13: [verify_file_safety] always comes to a verdict, whatever the size
    of the file and wherever its read position was. A detected type outside
    the allowed set is refused with 400 and the position is back at 0; an
    allowed type is accepted, position at 0, exactly when the file has at
    most 10485760 bytes; a larger file is refused with 400 and its position
    is left beyond the limit, not rewound. The bytes are never changed. *)
Theorem verify_file_safety_verdict (from_buffer : list Byte.byte -> string)
    (f : UploadFile) :
  let file_type :=
    from_buffer (take Security.header_size (drop (position f) (data f))) in
  exists f' r,
    Security.verify_file_safety from_buffer f = Some (f', r) /\
    data f' = data f /\
    if negb (bool_decide (file_type ∈ Security.allowed_types))
    then r = Fail (HttpError 400
                     ("File type " ++ file_type ++ " not allowed")) /\
         position f' = 0%nat
    else if (Z.of_nat (length (data f)) <=? 10485760)%Z
    then r = Respond tt /\ position f' = 0%nat
    else r = Fail (HttpError 400 "File too large (max 10MB)") /\
         (10485760 < Z.of_nat (position f'))%Z.
Proof.
  intros file_type. unfold Security.verify_file_safety, Security.read.
  fold file_type.
  destruct (negb (bool_decide (file_type ∈ Security.allowed_types))).
  - eexists _, _. split; [reflexivity|]. split; [reflexivity|].
    split; reflexivity.
  - set (f0 := Security.seek _ 0).
    assert (Hd0 : data f0 = data f) by reflexivity.
    destruct (size_loop_spec (S (length (data f0))) f0) as (f1 & r & Hrun & Hd1 & Hres).
    + simpl. lia.
    + simpl. lia.
    + simpl. unfold Security.max_size. lia.
    + change (Z.of_nat (position f0)) with 0%Z in Hrun. rewrite Hrun.
      rewrite Hd0 in Hres. change Security.max_size with 10485760%Z in Hres.
      destruct (Z.of_nat (length (data f)) <=? 10485760)%Z.
      * subst r.
        destruct (hash_loop_spec (S (length (data (Security.seek f1 0))))
                    (Security.seek f1 0)) as (f2 & Hh & Hd2).
        { simpl. lia. }
        { simpl. lia. }
        rewrite Hh. eexists _, _. split; [reflexivity|].
        simpl. split; [|split; reflexivity].
        rewrite Hd2. simpl. rewrite Hd1. exact Hd0.
      * destruct Hres as [-> Hover].
        eexists _, _. split; [reflexivity|].
        split; [rewrite Hd1; exact Hd0|]. split; [reflexivity|exact Hover].
Qed.

(** * Properties of the rate limiter *)

Lemma cutoff_value (rl : RateLimiter) (now cut : Z) :
  Limiter.cutoff rl now = Ok cut ->
  cut = (now - time_window rl * 1000000)%Z /\
  Limiter.valid_instant cut = true.
Proof.
  unfold Limiter.cutoff, Limiter.timedelta_seconds, Limiter.datetime_sub.
  destruct (Z.abs (time_window rl / 86400) <=? 999999999)%Z; simpl;
    [|discriminate].
  destruct (Limiter.valid_instant (now - time_window rl * 1000000)) eqn:E;
    [|discriminate].
  intros H. injection H as <-. split; [reflexivity|exact E].
Qed.

Lemma cutoff_raises (rl : RateLimiter) (now : Z) (x : exn) :
  Limiter.cutoff rl now = Raise x -> x = OverflowError.
Proof.
  unfold Limiter.cutoff, Limiter.timedelta_seconds, Limiter.datetime_sub.
  destruct (Z.abs (time_window rl / 86400) <=? 999999999)%Z; simpl;
    [|intros H; injection H as <-; reflexivity].
  destruct (Limiter.valid_instant _); [discriminate|].
  intros H. injection H as <-. reflexivity.
Qed.

Lemma prune_lookup (cut : Z) (rl : RateLimiter) (key : string) :
  default [] (requests (Limiter.prune cut rl) !! key)
  = Limiter.recent cut (default [] (requests rl !! key)).
Proof.
  unfold Limiter.prune. cbn [requests]. rewrite lookup_omap.
  destruct (requests rl !! key) as [stamps|]; simpl; [|reflexivity].
  destruct (Limiter.recent cut stamps); reflexivity.
Qed.

Lemma is_allowed_state (rl : RateLimiter) (now cut : Z) (key : string) :
  Limiter.cutoff rl now = Ok cut ->
  let earlier := Limiter.recent cut (default [] (requests rl !! key)) in
  Limiter.is_allowed rl now key
  = Ok (mkLimiter (max_requests rl) (time_window rl)
          (<[key := (earlier ++ [now])%list]>
             (requests (Limiter.prune cut rl))),
        (Z.of_nat (length (earlier ++ [now])%list) <=? max_requests rl)%Z).
Proof.
  intros Hc earlier. unfold Limiter.is_allowed, Limiter.cleanup.
  rewrite Hc. cbv [mbind result_bind]. rewrite prune_lookup. reflexivity.
Qed.

(** X14: whenever the cutoff [now - time_window] is a [datetime],
    [is_allowed] returns and records the request whatever the verdict:
    afterwards the key holds its earlier requests newer than the cutoff
    followed by the present instant, and the verdict is positive exactly when
    that list, the present request included, has at most [max_requests]
    entries. Otherwise the call raises [OverflowError] and records
    nothing. *)
Theorem is_allowed_counts_recent_requests (rl : RateLimiter) (now : Z)
    (key : string) :
  match Limiter.cutoff rl now with
  | Ok cut =>
      let earlier := Limiter.recent cut (default [] (requests rl !! key)) in
      exists rl',
        Limiter.is_allowed rl now key
          = Ok (rl', (Z.of_nat (length earlier) + 1 <=? max_requests rl)%Z) /\
        requests rl' !! key = Some (earlier ++ [now])%list /\
        max_requests rl' = max_requests rl /\
        time_window rl' = time_window rl
  | Raise x =>
      Limiter.is_allowed rl now key = Raise OverflowError
  end.
Proof.
  destruct (Limiter.cutoff rl now) as [cut|x] eqn:Hc.
  - intros earlier. rewrite (is_allowed_state rl now cut key Hc).
    fold earlier. eexists. split; [|split; [|split]].
    + f_equal. f_equal. rewrite length_app. cbn [length]. f_equal. lia.
    + cbn [requests]. apply lookup_insert_eq.
    + reflexivity.
    + reflexivity.
  - unfold Limiter.is_allowed, Limiter.cleanup. rewrite Hc. simpl.
    rewrite (cutoff_raises rl now x Hc). reflexivity.
Qed.

(** X15: after any call of [is_allowed] that returns, no key of the limiter
    is left with an empty list, and every key other than the one asked
    about holds exactly its earlier requests newer than the cutoff. *)
Theorem is_allowed_keeps_lists_nonempty (rl rl' : RateLimiter) (now : Z)
    (key other : string) (verdict : bool) (stamps : list Z) :
  Limiter.is_allowed rl now key = Ok (rl', verdict) ->
  requests rl' !! other = Some stamps ->
  stamps <> [] /\
  (other <> key ->
     exists cut,
       Limiter.cutoff rl now = Ok cut /\
       stamps = Limiter.recent cut (default [] (requests rl !! other)) /\
       Forall (fun req => (cut < req)%Z) stamps).
Proof.
  intros Hcall H.
  destruct (Limiter.cutoff rl now) as [cut|x] eqn:Hc.
  2:{ unfold Limiter.is_allowed, Limiter.cleanup in Hcall.
      rewrite Hc in Hcall. discriminate. }
  rewrite (is_allowed_state rl now cut key Hc) in Hcall.
  injection Hcall as <- _. cbn [requests] in H.
  destruct (decide (other = key)) as [->|Hne].
  - rewrite lookup_insert_eq in H. injection H as <-.
    split; [|congruence].
    destruct (Limiter.recent cut _); discriminate.
  - rewrite lookup_insert_ne in H by congruence.
    unfold Limiter.prune in H. cbn [requests] in H.
    rewrite lookup_omap in H.
    destruct (requests rl !! other) as [old|]; simpl in H; [|discriminate].
    destruct (Limiter.recent cut old) as [|r kept] eqn:E; [discriminate|].
    injection H as <-. split; [discriminate|]. intros _.
    exists cut. split; [reflexivity|].
    split; [simpl; rewrite E; reflexivity|].
    rewrite <- E. apply Forall_forall. intros req Hin.
    apply list_elem_of_filter in Hin as [Hin _].
    apply Is_true_true, Z.ltb_lt in Hin. exact Hin.
Qed.

Lemma is_allowed_keeps_lists_nonempty_witness :
  let rl := mkLimiter 2 60 (<["a" := [0%Z; 50000000%Z]]>
                           (<["b" := [1%Z]]> ∅)) in
  exists rl' verdict,
    Limiter.is_allowed rl 70000000 "b" = Ok (rl', verdict) /\
    requests rl' !! "a" = Some [50000000%Z] /\
    [50000000%Z] <> [] /\
    ("a" <> "b" ->
       exists cut,
         Limiter.cutoff rl 70000000 = Ok cut /\
         [50000000%Z]
           = Limiter.recent cut (default [] (requests rl !! "a")) /\
         Forall (fun req => (cut < req)%Z) [50000000%Z]).
Proof.
  intros rl. eexists _, _.
  split; [reflexivity|].
  split; [reflexivity|].
  eapply (is_allowed_keeps_lists_nonempty rl _ 70000000 "b" "a" _
            [50000000%Z]); reflexivity.
Defined.

Lemma recent_all (cut : Z) (stamps : list Z) :
  Forall (fun req => (cut < req)%Z) stamps ->
  Limiter.recent cut stamps = stamps.
Proof.
  unfold Limiter.recent. induction 1 as [|req rest Hreq _ IH]; [reflexivity|].
  rewrite filter_cons. destruct (decide _) as [_|Hn].
  - rewrite IH. reflexivity.
  - exfalso. apply Hn, Is_true_true, Z.ltb_lt. exact Hreq.
Qed.

Lemma recent_none (cut : Z) (stamps : list Z) :
  Forall (fun req => (req <= cut)%Z) stamps ->
  Limiter.recent cut stamps = [].
Proof.
  unfold Limiter.recent. induction 1 as [|req rest Hreq _ IH]; [reflexivity|].
  rewrite filter_cons. destruct (decide _) as [Hy|_]; [|exact IH].
  exfalso. apply Is_true_true, Z.ltb_lt in Hy. lia.
Qed.

Lemma burst_verdicts (key : string) (now cut : Z) (count : nat) :
  forall (rl : RateLimiter) (stamps : list Z),
    (0 < time_window rl)%Z ->
    Limiter.cutoff rl now = Ok cut ->
    default [] (requests rl !! key) = stamps ->
    Forall (fun req => (cut < req)%Z) stamps ->
    exists rl',
      Limiter.burst count rl now key
      = Ok (rl',
            map (fun i =>
                   (Z.of_nat (length stamps + S i) <=? max_requests rl)%Z)
                (seq 0 count)).
Proof.
  induction count as [|count IH]; intros rl stamps Hw Hc Hs Hall.
  - eexists. reflexivity.
  - cbn [Limiter.burst]. rewrite (is_allowed_state rl now cut key Hc).
    rewrite Hs, (recent_all cut stamps Hall). simpl.
    set (rl1 := mkLimiter _ _ _).
    destruct (IH rl1 (stamps ++ [now])%list) as [rl' Hb].
    + exact Hw.
    + exact Hc.
    + unfold rl1. cbn [requests]. rewrite lookup_insert_eq. reflexivity.
    + apply Forall_app. split; [exact Hall|].
      constructor; [|constructor].
      destruct (cutoff_value rl now cut Hc) as [-> _]. lia.
    + rewrite Hb. simpl. exists rl'. f_equal. f_equal.
      cbn [seq map]. f_equal.
      * rewrite length_app. cbn [length].
        first [reflexivity | do 2 f_equal; lia].
      * rewrite <- seq_shift, map_map. apply map_ext. intros i.
        rewrite length_app. cbn [length max_requests rl1].
        first [reflexivity | do 2 f_equal; lia].
Qed.

(** X16: from a limiter that holds nothing for a key and whose window is
    positive, at an instant whose cutoff is a [datetime], a burst of calls for
    that key is allowed for its first [max_requests] calls and refused from
    then on: the i-th verdict is positive exactly when i is at most
    [max_requests]. *)
Theorem burst_allows_first_max_requests (rl : RateLimiter) (now cut : Z)
    (key : string) (count : nat) :
  (0 < time_window rl)%Z ->
  Limiter.cutoff rl now = Ok cut ->
  requests rl !! key = None ->
  exists rl',
    Limiter.burst count rl now key
    = Ok (rl',
          map (fun i => (Z.of_nat (S i) <=? max_requests rl)%Z)
              (seq 0 count)).
Proof.
  intros Hw Hc Hnone.
  exact (burst_verdicts key now cut count rl [] Hw Hc
           ltac:(rewrite Hnone; reflexivity) ltac:(constructor)).
Qed.

Lemma burst_allows_first_max_requests_witness :
  exists rl',
    Limiter.burst 4 (mkLimiter 2 60 ∅) 70000000 "client"
    = Ok (rl', [true; true; false; false]).
Proof.
  exact (burst_allows_first_max_requests (mkLimiter 2 60 ∅) 70000000
           10000000 "client" 4 ltac:(reflexivity) eq_refl eq_refl).
Defined.

(** X17: a window of zero or fewer seconds switches the limiter off. When
    the cutoff is a [datetime] and none of the recorded requests of a key
    lies in the future, the call forgets them all, keeps only the present
    request, and allows it as soon as [max_requests] is at least 1. *)
Theorem non_positive_window_never_limits (rl : RateLimiter) (now cut : Z)
    (key : string) :
  (time_window rl <= 0)%Z ->
  Limiter.cutoff rl now = Ok cut ->
  Forall (fun req => (req <= now)%Z) (default [] (requests rl !! key)) ->
  exists rl',
    Limiter.is_allowed rl now key = Ok (rl', (1 <=? max_requests rl)%Z) /\
    requests rl' !! key = Some [now].
Proof.
  intros Hw Hc Hpast. rewrite (is_allowed_state rl now cut key Hc).
  rewrite recent_none.
  - eexists. split; [reflexivity|]. cbn [requests]. apply lookup_insert_eq.
  - destruct (cutoff_value rl now cut Hc) as [-> _].
    eapply Forall_impl; [exact Hpast|].
    intros req Hreq. simpl in *. lia.
Qed.

Lemma non_positive_window_never_limits_witness :
  let rl := mkLimiter 1 0 (<["client" := [5%Z; 7%Z; 9%Z]]> ∅) in
  exists rl',
    Limiter.is_allowed rl 9 "client" = Ok (rl', (1 <=? max_requests rl)%Z) /\
    requests rl' !! "client" = Some [9%Z].
Proof.
  intros rl.
  apply (non_positive_window_never_limits rl 9 9 "client").
  - simpl. lia.
  - reflexivity.
  - repeat constructor; lia.
Defined.

(** * Properties of the model classes *)

(** X18: [Research.analyze_content] and the service's gathered analysis
    agree on every attribute but one when all three calls return: the
    service stores the embedding as a list, [analyze_content] as the array
    itself. They differ on failure: if the analysis returns and the embedding
    call raises, [analyze_content] raises with the new analysis already
    stored on the object next to the old embedding, while the service's
    [reanalyze] raises without producing a row. *)
Theorem analyze_content_partial_on_failure (analyzer : ServiceEnv)
    (self : ResearchObject) :
  (forall row, Service.reanalyze analyzer (attributes self) = Ok row ->
     exists fields e,
       ResearchModel.analyze_content analyzer self
         = (mkObject fields (Some e), Ok tt) /\
       getattr row "embedding_vector" = PVector e /\
       getattr fields "embedding_vector"
         = getattr (attributes self) "embedding_vector" /\
       (forall field, field <> "embedding_vector" ->
          getattr fields field = getattr row field)) /\
  (forall a x,
     svc_analyze_research analyzer (getattr (attributes self) "title")
       (getattr (attributes self) "abstract")
       (getattr (attributes self) "content")
       (getattr (attributes self) "keywords") = Ok a ->
     svc_generate_embedding analyzer (getattr (attributes self) "title")
       (getattr (attributes self) "abstract") = Raise x ->
     ResearchModel.analyze_content analyzer self
       = (mkObject (setattr (attributes self) "analysis_results"
                      (PAnalysis a))
                   (raw_embedding self), Raise x) /\
     Service.reanalyze analyzer (attributes self) = Raise x).
Proof.
  assert (Hattr : forall a field, field <> "analysis_results" ->
            getattr (setattr (attributes self) "analysis_results"
                       (PAnalysis a)) field
            = getattr (attributes self) field).
  { intros a field Hne. apply setattr_other. exact Hne. }
  split.
  - intros row H. unfold Service.reanalyze in H.
    unfold ResearchModel.analyze_content. cbn [attributes].
    destruct (svc_analyze_research analyzer _ _ _ _) as [a|]; simpl in H;
      [|discriminate].
    rewrite !Hattr by discriminate.
    destruct (svc_generate_embedding analyzer _ _) as [e|]; simpl in H;
      [|discriminate].
    destruct (svc_extract_topics analyzer _) as [t|]; simpl in H;
      [|discriminate].
    injection H as <-. eexists _, e. split; [reflexivity|].
    unfold getattr, setattr. split; [|split].
    + rewrite lookup_insert_ne by discriminate.
      rewrite lookup_insert_eq. reflexivity.
    + rewrite !lookup_insert_ne by discriminate. reflexivity.
    + intros field Hne.
      destruct (decide (field = "topic_distribution")) as [->|Ht].
      * rewrite !lookup_insert_eq. reflexivity.
      * rewrite (lookup_insert_ne _ "topic_distribution") by congruence.
        rewrite (lookup_insert_ne _ "topic_distribution") by congruence.
        rewrite (lookup_insert_ne _ "embedding_vector") by congruence.
        reflexivity.
  - intros a x Ha He. unfold ResearchModel.analyze_content, Service.reanalyze.
    cbn [attributes]. rewrite Ha. rewrite !Hattr by discriminate. rewrite He.
    split; reflexivity.
Qed.

Lemma analyze_content_partial_on_failure_witness :
  let analyzer := mkEnv (fun _ _ _ _ => Ok Examples.analysis1)
                    (fun _ _ => Raise ModelError) (fun _ => Ok ∅)
                    (fun _ _ => Ok []) in
  let self := mkObject (Examples.paper "one" [1%Q; 0%Q]) None in
  ResearchModel.analyze_content analyzer self
    = (mkObject (setattr (attributes self) "analysis_results"
                   (PAnalysis Examples.analysis1))
                (raw_embedding self), Raise ModelError) /\
  Service.reanalyze analyzer (attributes self) = Raise ModelError.
Proof.
  intros analyzer self.
  exact (proj2 (analyze_content_partial_on_failure analyzer self)
               Examples.analysis1 ModelError eq_refl eq_refl).
Defined.

Lemma underscore_upper_no_upper (name : string) :
  ResearchModel.no_upper (ResearchModel.underscore_upper name) = true.
Proof.
  induction name as [|c rest IH]; [reflexivity|].
  simpl. destruct (ResearchModel.is_upper c) eqn:E.
  - cbn [ResearchModel.no_upper]. rewrite IH.
    replace (ResearchModel.is_upper "_") with false by reflexivity.
    replace (ResearchModel.is_upper (PyStr.lower_ascii c)) with false;
      [reflexivity|].
    clear -E. destruct c as [[] [] [] [] [] [] [] []];
      first [discriminate E | reflexivity].
  - cbn [ResearchModel.no_upper]. rewrite E, IH. reflexivity.
Qed.

Lemma lstrip_no_upper (s : string) :
  ResearchModel.no_upper s = true ->
  ResearchModel.no_upper (ResearchModel.lstrip_underscore s) = true.
Proof.
  induction s as [|c rest IH]; [reflexivity|].
  intros H. simpl. destruct (Ascii.eqb c "_"); [|exact H].
  apply IH. simpl in H. apply andb_true_iff in H as [_ H]. exact H.
Qed.

Lemma lstrip_head (s : string) :
  match ResearchModel.lstrip_underscore s with
  | String c _ => Ascii.eqb c "_" = false
  | EmptyString => True
  end.
Proof.
  induction s as [|c rest IH]; [exact I|].
  simpl. destruct (Ascii.eqb c "_") eqn:E; [exact IH|exact E].
Qed.

(** X19: the snake-case table name never holds an ASCII capital and never
    begins with an underscore, whatever the class name; every leading
    underscore of the class name is lost, so two class names that differ
    only by leading underscores get the same table name. *)
Theorem snake_case_shape (name : string) :
  ResearchModel.no_upper (ResearchModel.snake_case name) = true /\
  match ResearchModel.snake_case name with
  | String c _ => Ascii.eqb c "_" = false
  | EmptyString => True
  end /\
  ResearchModel.snake_case (String "_" name) = ResearchModel.snake_case name.
Proof.
  unfold ResearchModel.snake_case. split; [|split].
  - apply lstrip_no_upper, underscore_upper_no_upper.
  - apply lstrip_head.
  - reflexivity.
Qed.

(** * The sign of the coherence score *)














